(** * The 2.5 Syndicate backend: a shallow embedding of [backend/server.py]

    The handlers of the FastAPI application are embedded as pure functions
    over an explicit store (the three MongoDB collections the handlers
    touch).  Everything the handlers obtain from outside the process (the
    clock, [uuid4], bcrypt, PyJWT, the payment provider, the Telegram API)
    is an argument of the embedded function or a field of the
    [Collaborators] interface.

    Python [str] values are sequences of Unicode code points; they are
    modelled as [list N].  Python [float] values are IEEE binary64 numbers;
    they are modelled with the [spec_float] type of the standard library. *)

From Stdlib Require Import ZArith NArith List String Ascii Bool Lia.
From Stdlib Require Import Sorting.Sorted DecimalString.
From Stdlib Require Import Floats.SpecFloat.
From stdpp Require Import base option list gmap.

Local Open Scope Z_scope.

(* ===================================================================== *)
(** ** Python strings *)
(* ===================================================================== *)

Module PyStr.

(** A Python [str]: the sequence of its code points. *)
Definition pystr := list N.

(** UTF-8 decoding of a literal of this file into code points. *)
Fixpoint utf8_decode (bs : list N) : pystr :=
  match bs with
  | [] => []
  | b0 :: r0 =>
    if (b0 <? 128)%N then b0 :: utf8_decode r0
    else match r0 with
    | [] => [b0]
    | b1 :: r1 =>
      if (b0 <? 224)%N
      then ((b0 - 192) * 64 + (b1 - 128))%N :: utf8_decode r1
      else match r1 with
      | [] => [b0; b1]
      | b2 :: r2 =>
        if (b0 <? 240)%N
        then ((b0 - 224) * 4096 + (b1 - 128) * 64 + (b2 - 128))%N
               :: utf8_decode r2
        else match r2 with
        | [] => [b0; b1; b2]
        | b3 :: r3 =>
          ((b0 - 240) * 262144 + (b1 - 128) * 4096
             + (b2 - 128) * 64 + (b3 - 128))%N :: utf8_decode r3
        end
      end
    end
  end.

Fixpoint bytes_of_string (s : string) : list N :=
  match s with
  | EmptyString => []
  | String a s' => N_of_ascii a :: bytes_of_string s'
  end.

(** [u "..."] is the Python string written as a literal. *)
Definition u (s : string) : pystr := utf8_decode (bytes_of_string s).

Definition LF : N := 10.

(** The marker glyphs of the channel messages. *)
Definition BALL : pystr := [9917%N].       (* U+26BD *)
Definition CHART : pystr := [128200%N].    (* U+1F4C8 *)
Definition PACKAGE : pystr := [128230%N].  (* U+1F4E6 *)
Definition CLOCK : pystr := [9200%N].      (* U+23F0 *)
Definition CHECK : pystr := [9989%N].      (* U+2705 *)
Definition CROSS : pystr := [10060%N].     (* U+274C *)

Definition pystr_eqb (a b : pystr) : bool := bool_decide (a = b).

(** Truthiness of a string: non-empty. *)
Definition truthy (s : pystr) : bool :=
  match s with [] => false | _ => true end.

(** [str.isspace] on one code point, which is also [\s] of [re] on [str]
    patterns (Unicode 14.0, the table of CPython 3.11). *)
Definition is_space (c : N) : bool :=
  ((9 <=? c) && (c <=? 13) || (28 <=? c) && (c <=? 32)
   || (c =? 133) || (c =? 160) || (c =? 5760)
   || (8192 <=? c) && (c <=? 8202)
   || (c =? 8232) || (c =? 8233) || (c =? 8239) || (c =? 8287)
   || (c =? 12288))%N.

(** First code point of every run of ten decimal digits (category Nd,
    Unicode 14.0): [\d] of [re], and the digits [int] and [float] accept. *)
Definition nd_zeros : list N :=
  [48; 1632; 1776; 1984; 2406; 2534; 2662; 2790; 2918; 3046; 3174; 3302;
   3430; 3558; 3664; 3792; 3872; 4160; 4240; 6112; 6160; 6470; 6608; 6784;
   6800; 6992; 7088; 7232; 7248; 42528; 43216; 43264; 43472; 43504; 43600;
   44016; 65296; 66720; 68912; 69734; 69872; 69942; 70096; 70384; 70736;
   70864; 71248; 71360; 71472; 71904; 72016; 72784; 73040; 73120; 92768;
   92864; 93008; 120782; 120792; 120802; 120812; 120822; 123200; 123632;
   125264; 130032]%N.

Fixpoint digit_in (zs : list N) (c : N) : option N :=
  match zs with
  | [] => None
  | z :: zs' =>
    if ((z <=? c) && (c <? z + 10))%N then Some (c - z)%N else digit_in zs' c
  end.

Definition digit_value (c : N) : option N := digit_in nd_zeros c.

Definition is_digit (c : N) : bool :=
  match digit_value c with Some _ => true | None => false end.

(** [s.startswith(p)] *)
Fixpoint startswith (p s : pystr) : bool :=
  match p, s with
  | [], _ => true
  | _ :: _, [] => false
  | a :: p', b :: s' => (a =? b)%N && startswith p' s'
  end.

(** [sub in s] *)
Fixpoint contains (sub s : pystr) : bool :=
  startswith sub s ||
  match s with
  | [] => false
  | _ :: s' => contains sub s'
  end.

Fixpoint lstrip (s : pystr) : pystr :=
  match s with
  | c :: s' => if is_space c then lstrip s' else s
  | [] => []
  end.

(** [s.strip()] *)
Definition strip (s : pystr) : pystr := rev (lstrip (rev (lstrip s))).

(** Splitting at the non-overlapping occurrences, from the left, of a
    separator of [n] code points recognised by [at_sep]: [str.split(sep)]
    and [re.split] of a pattern without groups.  [skip] counts the code
    points of the current separator still to drop, [acc] is the current
    piece, reversed. *)
Fixpoint split_go (at_sep : pystr -> bool) (n : nat)
    (skip : nat) (acc : pystr) (s : pystr) : list pystr :=
  match s with
  | [] => [rev acc]
  | c :: s' =>
    match skip with
    | S k => split_go at_sep n k acc s'
    | O =>
      if at_sep s then rev acc :: split_go at_sep n (n - 1) [] s'
      else split_go at_sep n 0 (c :: acc) s'
    end
  end.

(** [s.split(sep)] for a non-empty [sep]. *)
Definition split (sep s : pystr) : list pystr :=
  split_go (startswith sep) (length sep) 0 [] s.

(** [str.lower] and [str.upper], one code point at a time.  Only the code
    points whose image contains a character of the literals the parser
    looks for (the blank, [v], [s] for [lower]; [B], [T], [S] for [upper])
    are mapped; every other code point is left in place, its image never
    takes part in an occurrence of those literals (Unicode 14.0). *)
Definition lower1 (c : N) : pystr :=
  if ((65 <=? c) && (c <=? 90))%N then [(c + 32)%N] else [c].

Definition upper1 (c : N) : pystr :=
  if ((97 <=? c) && (c <=? 122))%N then [(c - 32)%N]
  else if (c =? 223)%N then [83; 83]%N          (* U+00DF *)
  else if (c =? 383)%N then [83]%N              (* U+017F *)
  else if (c =? 7831)%N then [84; 776]%N        (* U+1E97 *)
  else if (c =? 64261)%N then [83; 84]%N        (* U+FB05 *)
  else if (c =? 64262)%N then [83; 84]%N        (* U+FB06 *)
  else [c].

Definition lower (s : pystr) : pystr := concat (map lower1 s).
Definition upper (s : pystr) : pystr := concat (map upper1 s).

(** A match of the pattern [' vs '] under [re.IGNORECASE] at the head of
    [s]: besides both cases of each letter, [s] matches U+017F. *)
Definition at_vs_ignorecase (s : pystr) : bool :=
  match s with
  | c0 :: c1 :: c2 :: c3 :: _ =>
    ((c0 =? 32) && ((c1 =? 118) || (c1 =? 86))
     && ((c2 =? 115) || (c2 =? 83) || (c2 =? 383)) && (c3 =? 32))%N
  | _ => false
  end.

(** [re.split(r' vs ', s, flags=re.IGNORECASE)] *)
Definition re_split_vs (s : pystr) : list pystr :=
  split_go at_vs_ignorecase 4 0 [] s.

(** The longest prefix of digits, and what follows it. *)
Fixpoint span_digits (s : pystr) : pystr * pystr :=
  match s with
  | c :: s' =>
    if is_digit c
    then let '(ds, r) := span_digits s' in (c :: ds, r)
    else ([], s)
  | [] => ([], [])
  end.

(** [re.search] of one or more digits: group 1 of the leftmost match. *)
Fixpoint re_search_int (s : pystr) : option pystr :=
  match s with
  | [] => None
  | c :: s' =>
    if is_digit c then Some (c :: fst (span_digits s'))
    else re_search_int s'
  end.

(** [re.search] of digits, an optional dot, then any digits (the odds
    pattern): group 1 of the leftmost match. *)
Fixpoint re_search_decimal (s : pystr) : option pystr :=
  match s with
  | [] => None
  | c :: s' =>
    if is_digit c then
      let '(ds, r) := span_digits s' in
      match r with
      | d :: r' =>
        if (d =? 46)%N then Some (c :: ds ++ d :: fst (span_digits r'))
        else Some (c :: ds)
      | [] => Some (c :: ds)
      end
    else re_search_decimal s'
  end.

(** A match of the score pattern (digits, blanks, a hyphen or a colon,
    blanks, digits) starting at the head of [s].  Each
    quantifier is greedy and what follows it cannot start with a character
    it accepts, so the only candidate is the longest one. *)
Definition match_score_at (s : pystr) : option (pystr * pystr) :=
  let '(d1, r1) := span_digits s in
  match d1 with
  | [] => None
  | _ :: _ =>
    match lstrip r1 with
    | c :: r2 =>
      if ((c =? 45) || (c =? 58))%N then
        match span_digits (lstrip r2) with
        | ([], _) => None
        | (d2, _) => Some (d1, d2)
        end
      else None
    | [] => None
    end
  end.

(** [re.search] of the score pattern: groups 1 and 2 of the leftmost
    match. *)
Fixpoint re_search_score (s : pystr) : option (pystr * pystr) :=
  match match_score_at s with
  | Some g => Some g
  | None =>
    match s with
    | [] => None
    | _ :: s' => re_search_score s'
    end
  end.

(** The value of a string of decimal digits. *)
Definition digits_value (ds : pystr) : Z :=
  fold_left (fun acc c => 10 * acc + Z.of_N (default 0%N (digit_value c)))
            ds 0.

(** [sys.get_int_max_str_digits()], CPython's default. *)
Definition int_max_str_digits : nat := 4300.

(** [int(ds)] for a non-empty string of digits; [None] is the [ValueError]
    CPython raises beyond the digit limit. *)
Definition py_int (ds : pystr) : option Z :=
  if (int_max_str_digits <? length ds)%nat then None
  else Some (digits_value ds).

End PyStr.

Export PyStr.

(* ===================================================================== *)
(** ** Python floats *)
(* ===================================================================== *)

Module PyFloat.

(** IEEE binary64. *)
Definition prec : Z := 53.
Definition emax : Z := 1024.

Definition float := spec_float.

(** An integer as an exact (unrounded) operand of a rounding operation. *)
Definition int_exact (z : Z) : spec_float :=
  match z with
  | Z0 => S754_zero false
  | Zpos p => S754_finite false p 0
  | Zneg p => S754_finite true p 0
  end.

(** [float(z)] for an integer [z]. *)
Definition of_int (z : Z) : float := binary_normalize prec emax z 0 false.



(** [float(s)] where [s] is digits, optionally followed by a dot and
    digits: the decimal value rounded to the nearest binary64 number. *)
Definition py_float (s : pystr) : float :=
  let '(ip, r) := span_digits s in
  let fp := match r with
            | _ :: r' => fst (span_digits r')
            | [] => []
            end in
  SFdiv prec emax (int_exact (digits_value (ip ++ fp)))
                  (int_exact (10 ^ Z.of_nat (length fp))).

(** Nearest integer to [num / den], ties to even ([den] positive). *)
Definition round_half_even (num den : Z) : Z :=
  let q := num / den in
  match (2 * (num mod den) ?= den) with
  | Lt => q
  | Gt => q + 1
  | Eq => if Z.even q then q else q + 1
  end.

(** The float nearest to [n] tenths, with sign [s]. *)
Definition tenths (s : bool) (n : Z) : float :=
  match n with
  | Zpos p => SFdiv prec emax (S754_finite s p 0) (int_exact 10)
  | _ => S754_zero s
  end.

(** [round(x, 1)]: the exact value of [x] is rounded to a whole number of
    tenths (ties to even), and that decimal is read back as a float. *)
Definition py_round1 (x : float) : float :=
  match x with
  | S754_finite s m e =>
    tenths s (round_half_even (10 * Zpos m * 2 ^ Z.max e 0)
                              (2 ^ Z.max (- e) 0))
  | _ => x
  end.

End PyFloat.

Export PyFloat.

(* ===================================================================== *)
(** ** The channel-message parser *)
(* ===================================================================== *)

(** The dictionary [parse_telegram_message] returns. *)
Record ParsedPick := {
  pp_home_team : pystr;
  pp_away_team : pystr;
  pp_bet_type : pystr;
  pp_stake : Z;
  pp_odds : float;
  pp_is_won : bool;
  pp_home_score : option Z;
  pp_away_score : option Z
}.

(** The local variables of the parser before the first line:
    no teams, no bet type, stake 5, odds 1.80, not won, no score. *)
Definition parse_init : ParsedPick := {|
  pp_home_team := [];
  pp_away_team := [];
  pp_bet_type := [];
  pp_stake := 5;
  pp_odds := py_float (u "1.80");
  pp_is_won := false;
  pp_home_score := None;
  pp_away_score := None
|}.

Definition set_teams (st : ParsedPick) (teams : list pystr) : ParsedPick :=
  match teams with
  | [h; a] =>
    {| pp_home_team := strip h; pp_away_team := strip a;
       pp_bet_type := pp_bet_type st; pp_stake := pp_stake st;
       pp_odds := pp_odds st; pp_is_won := pp_is_won st;
       pp_home_score := pp_home_score st;
       pp_away_score := pp_away_score st |}
  | _ => st
  end.

(** The match line: [' v '], else [' vs '] in any case. *)
Definition step_teams (line : pystr) (st : ParsedPick) : ParsedPick :=
  if contains (u " v ") line
     && negb (startswith BALL line) && negb (startswith CHART line)
     && negb (startswith PACKAGE line) && negb (startswith CLOCK line)
     && negb (startswith CHECK line) && negb (startswith CROSS line)
  then set_teams st (split (u " v ") line)
  else if contains (u " vs ") (lower line) && negb (startswith BALL line)
  then set_teams st (re_split_vs line)
  else st.

(** The chain of [if]/[elif] that recognises the market; [None] when no
    branch is taken and the bet type keeps its value. *)
Definition bet_type_of (line : pystr) : option pystr :=
  if contains (u "Over 2.5") line then Some (u "Over 2.5")
  else if contains (u "Under 2.5") line then Some (u "Under 2.5")
  else if contains (u "Over 1.5") line then Some (u "Over 1.5")
  else if contains (u "Under 1.5") line then Some (u "Under 1.5")
  else if contains (u "Over 3.5") line then Some (u "Over 3.5")
  else if contains (u "BTTS") (upper line)
  then Some (if contains (u "Yes") line then u "BTTS Yes" else u "BTTS No")
  else None.

Definition step_bet_type (line : pystr) (st : ParsedPick) : ParsedPick :=
  if contains BALL line || contains (u "Over") line
     || contains (u "Under") line || contains (u "BTTS") line
  then
    {| pp_home_team := pp_home_team st; pp_away_team := pp_away_team st;
       pp_bet_type := default (pp_bet_type st) (bet_type_of line);
       pp_stake := pp_stake st; pp_odds := pp_odds st;
       pp_is_won := if contains CHECK line then true else pp_is_won st;
       pp_home_score := pp_home_score st;
       pp_away_score := pp_away_score st |}
  else st.

(** The stake line; [None] when [int] raises. *)
Definition step_stake (line : pystr) (st : ParsedPick) : option ParsedPick :=
  if contains (u "Points") line || contains CHART line then
    match re_search_int line with
    | Some g =>
      match py_int g with
      | Some n =>
        Some {| pp_home_team := pp_home_team st;
                pp_away_team := pp_away_team st;
                pp_bet_type := pp_bet_type st;
                pp_stake := if 10 <? n then 10 else n;
                pp_odds := pp_odds st; pp_is_won := pp_is_won st;
                pp_home_score := pp_home_score st;
                pp_away_score := pp_away_score st |}
      | None => None
      end
    | None => Some st
    end
  else Some st.

Definition step_odds (line : pystr) (st : ParsedPick) : ParsedPick :=
  if contains (u "Odds") line || contains PACKAGE line then
    match re_search_decimal line with
    | Some g =>
      {| pp_home_team := pp_home_team st; pp_away_team := pp_away_team st;
         pp_bet_type := pp_bet_type st; pp_stake := pp_stake st;
         pp_odds := py_float g; pp_is_won := pp_is_won st;
         pp_home_score := pp_home_score st;
         pp_away_score := pp_away_score st |}
    | None => st
    end
  else st.

Definition set_is_won (st : ParsedPick) (w : bool) : ParsedPick :=
  {| pp_home_team := pp_home_team st; pp_away_team := pp_away_team st;
     pp_bet_type := pp_bet_type st; pp_stake := pp_stake st;
     pp_odds := pp_odds st; pp_is_won := w;
     pp_home_score := pp_home_score st;
     pp_away_score := pp_away_score st |}.

Definition step_result (line : pystr) (st : ParsedPick) : ParsedPick :=
  if contains (u "Result") line then
    if contains CHECK line || contains (u "Full House") line
       || contains (u "Won") line || contains (u "Win") line
    then set_is_won st true
    else if contains CROSS line || contains (u "Lost") line
            || contains (u "Loss") line
    then set_is_won st false
    else st
  else st.

(** The score; [None] when [int] raises. *)
Definition step_score (line : pystr) (st : ParsedPick) : option ParsedPick :=
  match re_search_score line with
  | Some (g1, g2) =>
    if contains (u "Score") line || contains (u "FT") line
       || contains (u "Result") line
    then
      match py_int g1, py_int g2 with
      | Some h, Some a =>
        Some {| pp_home_team := pp_home_team st;
                pp_away_team := pp_away_team st;
                pp_bet_type := pp_bet_type st; pp_stake := pp_stake st;
                pp_odds := pp_odds st; pp_is_won := pp_is_won st;
                pp_home_score := Some h; pp_away_score := Some a |}
      | _, _ => None
      end
    else Some st
  | None => Some st
  end.

(** The body of the loop for one line. *)
Definition parse_line (raw : pystr) (st : ParsedPick) : option ParsedPick :=
  let line := strip raw in
  let st := step_bet_type line (step_teams line st) in
  match step_stake line st with
  | None => None
  | Some st => step_score line (step_result line (step_odds line st))
  end.

Fixpoint parse_lines (lines : list pystr) (st : ParsedPick)
    : option ParsedPick :=
  match lines with
  | [] => Some st
  | l :: ls =>
    match parse_line l st with
    | Some st' => parse_lines ls st'
    | None => None
    end
  end.

(** [parse_telegram_message(text)]; [None] is Python's [None], returned
    when a required field is missing and when an exception was caught. *)
Definition parse_telegram_message (text : pystr) : option ParsedPick :=
  match parse_lines (split [LF] (strip text)) parse_init with
  | Some st =>
    if truthy (pp_home_team st) && truthy (pp_away_team st)
       && truthy (pp_bet_type st)
    then Some st else None
  | None => None
  end.

(* ===================================================================== *)
(** ** The document store *)
(* ===================================================================== *)

(** A collection is the list of its documents in insertion order; a query
    filter is a decidable predicate on documents. *)
Module Mongo.
Section Collection.
Context {D : Type}.

(** [find_one(filter)]: the first matching document. *)
Fixpoint find_one (q : D -> bool) (c : list D) : option D :=
  match c with
  | [] => None
  | d :: c' => if q d then Some d else find_one q c'
  end.

(** [update_one(filter, {"$set": ...})]: the first matching document is
    patched; nothing happens, and nothing is raised, without a match. *)
Fixpoint update_one (q : D -> bool) (set : D -> D) (c : list D) : list D :=
  match c with
  | [] => []
  | d :: c' => if q d then set d :: c' else d :: update_one q set c'
  end.

Definition insert_one (d : D) (c : list D) : list D := c ++ [d].

Definition count_documents (q : D -> bool) (c : list D) : Z :=
  Z.of_nat (length (List.filter q c)).

(** [find(filter)], before [sort] and [to_list]. *)
Definition find (q : D -> bool) (c : list D) : list D := List.filter q c.
End Collection.

(** The order of string values in a sort: code point by code point, a
    proper prefix first. *)
Fixpoint str_compare (a b : pystr) : comparison :=
  match a, b with
  | [], [] => Eq
  | [], _ :: _ => Lt
  | _ :: _, [] => Gt
  | x :: a', y :: b' =>
    match (x ?= y)%N with
    | Eq => str_compare a' b'
    | c => c
    end
  end.

Definition str_leb (a b : pystr) : bool :=
  match str_compare a b with Gt => false | _ => true end.

Section Sort.
Context {D : Type} (key : D -> pystr).

Fixpoint insert_asc (x : D) (l : list D) : list D :=
  match l with
  | [] => [x]
  | y :: l' =>
    if str_leb (key x) (key y) then x :: l else y :: insert_asc x l'
  end.

(** [.sort(key, 1)]: ascending; documents with equal keys keep their
    order (the store promises no order among them). *)
Definition sort_asc (l : list D) : list D := foldr insert_asc [] l.
End Sort.


(** [.to_list(n)] *)
Definition to_list {D : Type} (n : nat) (l : list D) : list D := take n l.

End Mongo.

(* ===================================================================== *)
(** ** Documents *)
(* ===================================================================== *)

Record User := {
  u_id : pystr;
  u_email : pystr;
  u_name : pystr;
  u_password_hash : pystr;
  u_is_vip : bool;
  u_is_admin : bool;
  u_subscription_status : option pystr;
  u_subscription_id : option pystr;
  u_created_at : pystr
}.

Record Bet := {
  b_id : pystr;
  b_home_team : pystr;
  b_away_team : pystr;
  b_league : pystr;
  b_bet_type : pystr;
  b_odds : float;
  b_stake : Z;
  b_kick_off : pystr;
  b_is_vip : bool;
  b_status : pystr;
  b_home_score : option Z;
  b_away_score : option Z;
  b_created_at : pystr;
  b_date : pystr;
  b_telegram_message_id : option Z
}.

Record Transaction := {
  t_id : pystr;
  t_session_id : pystr;
  t_user_id : pystr;
  t_user_email : pystr;
  t_amount : float;
  t_currency : pystr;
  t_payment_status : pystr;
  t_created_at : pystr
}.

(** The database: the collections the modelled handlers use. *)
Record DB := {
  users : list User;
  bets : list Bet;
  payment_transactions : list Transaction
}.

Definition with_users (db : DB) (us : list User) : DB :=
  {| users := us; bets := bets db;
     payment_transactions := payment_transactions db |}.

Definition with_bets (db : DB) (bs : list Bet) : DB :=
  {| users := users db; bets := bs;
     payment_transactions := payment_transactions db |}.

Definition with_transactions (db : DB) (ts : list Transaction) : DB :=
  {| users := users db; bets := bets db; payment_transactions := ts |}.

(** Query filters. *)
Definition user_id_is (i : pystr) (x : User) : bool := pystr_eqb (u_id x) i.
Definition user_email_is (e : pystr) (x : User) : bool :=
  pystr_eqb (u_email x) e.
Definition session_id_is (s : pystr) (t : Transaction) : bool :=
  pystr_eqb (t_session_id t) s.

(** [{"$set": {"is_admin": True}}] *)
Definition set_is_admin (x : User) : User :=
  {| u_id := u_id x; u_email := u_email x; u_name := u_name x;
     u_password_hash := u_password_hash x; u_is_vip := u_is_vip x;
     u_is_admin := true;
     u_subscription_status := u_subscription_status x;
     u_subscription_id := u_subscription_id x;
     u_created_at := u_created_at x |}.

(** [{"$set": {"is_vip": True, "subscription_status": "active",
              "subscription_id": session_id}}] *)
Definition grant_vip (session_id : pystr) (x : User) : User :=
  {| u_id := u_id x; u_email := u_email x; u_name := u_name x;
     u_password_hash := u_password_hash x; u_is_vip := true;
     u_is_admin := u_is_admin x;
     u_subscription_status := Some (u "active");
     u_subscription_id := Some session_id;
     u_created_at := u_created_at x |}.

(** [{"$set": {"payment_status": "paid"}}] *)
Definition set_paid (t : Transaction) : Transaction :=
  {| t_id := t_id t; t_session_id := t_session_id t;
     t_user_id := t_user_id t; t_user_email := t_user_email t;
     t_amount := t_amount t; t_currency := t_currency t;
     t_payment_status := u "paid"; t_created_at := t_created_at t |}.

(* ===================================================================== *)
(** ** Results, clock readings and collaborators *)
(* ===================================================================== *)

(** What a handler produces: a value, an [HTTPException], or an exception
    nobody catches (which the framework answers with status 500). *)
Inductive result (A : Type) : Type :=
  | Ok (a : A)
  | HTTPException (status_code : Z) (detail : pystr)
  | Uncaught (exn : pystr).
Arguments Ok {A} a.
Arguments HTTPException {A} status_code detail.
Arguments Uncaught {A} exn.

(** A [datetime] in UTC, through the three views the handlers take. *)
Record datetime := {
  timestamp : float;     (* .timestamp() *)
  isoformat : pystr;     (* .isoformat() *)
  ymd : pystr            (* .strftime("%Y-%m-%d") *)
}.

(** What [jwt.decode] does with a token. *)
Inductive jwt_outcome :=
  | JwtPayload (user_id : option pystr)   (* the claims; their 'user_id' *)
  | ExpiredSignatureError
  | InvalidTokenError.

(** The libraries the handlers call. *)
Class Collaborators := {
  (** [bcrypt.hashpw(password, salt)] *)
  bcrypt_hashpw : pystr -> pystr -> pystr;
  (** [bcrypt.checkpw(password, hashed)] *)
  bcrypt_checkpw : pystr -> pystr -> bool;
  (** [jwt.encode({'user_id': .., 'exp': ..}, secret, 'HS256')] *)
  jwt_encode : pystr -> float -> pystr -> pystr;
  (** [jwt.decode(token, secret, ['HS256'])] at a reading of the clock *)
  jwt_decode : pystr -> pystr -> datetime -> jwt_outcome;
  (** [datetime.fromtimestamp(seconds, tz=timezone.utc)] *)
  fromtimestamp : Z -> datetime
}.

(** The configuration read from the environment when the module loads. *)
Record Config := {
  JWT_SECRET : pystr;
  ADMIN_CODE : pystr;
  STRIPE_API_KEY : option pystr;
  TELEGRAM_BOT_TOKEN : option pystr
}.

(** [os.environ.get(..)] of a variable that must be set and not empty. *)
Definition configured (v : option pystr) : bool :=
  match v with Some s => truthy s | None => false end.

Record UserResponse := {
  ur_id : pystr;
  ur_email : pystr;
  ur_name : pystr;
  ur_is_vip : bool;
  ur_is_admin : bool;
  ur_subscription_status : option pystr;
  ur_created_at : pystr
}.

Record TokenResponse := {
  tr_token : pystr;
  tr_user : UserResponse
}.

Definition user_response (x : User) : UserResponse :=
  {| ur_id := u_id x; ur_email := u_email x; ur_name := u_name x;
     ur_is_vip := u_is_vip x; ur_is_admin := u_is_admin x;
     ur_subscription_status := u_subscription_status x;
     ur_created_at := u_created_at x |}.

(* ===================================================================== *)
(** ** Authentication *)
(* ===================================================================== *)

Section Auth.
Context `{Collaborators} (cfg : Config).

(** [hash_password]; [salt] is what [bcrypt.gensalt()] returned. *)
Definition hash_password (password salt : pystr) : pystr :=
  bcrypt_hashpw password salt.

Definition verify_password (password hashed : pystr) : bool :=
  bcrypt_checkpw password hashed.

(** [create_token]: expiry thirty days after [now]. *)
Definition create_token (user_id : pystr) (now : datetime) : pystr :=
  jwt_encode user_id
    (SFadd prec emax (timestamp now) (of_int (86400 * 30)))
    (JWT_SECRET cfg).

(** [get_current_user]; [auth_header] is the Authorization header. *)
Definition get_current_user (db : DB) (auth_header : option pystr)
    (now : datetime) : result User :=
  match auth_header with
  | None => HTTPException 401 (u "Not authenticated")
  | Some h =>
    if negb (truthy h) || negb (startswith (u "Bearer ") h)
    then HTTPException 401 (u "Not authenticated")
    else
      let token := default [] (split (u " ") h !! 1%nat) in
      match jwt_decode token (JWT_SECRET cfg) now with
      | JwtPayload (Some uid) =>
        match Mongo.find_one (user_id_is uid) (users db) with
        | Some user => Ok user
        | None => HTTPException 401 (u "User not found")
        end
      | JwtPayload None => Uncaught (u "KeyError")
      | ExpiredSignatureError => HTTPException 401 (u "Token expired")
      | InvalidTokenError => HTTPException 401 (u "Invalid token")
      end
  end.

Definition get_admin_user (db : DB) (auth_header : option pystr)
    (now : datetime) : result User :=
  match get_current_user db auth_header now with
  | Ok user =>
    if u_is_admin user then Ok user
    else HTTPException 403 (u "Admin access required")
  | e => e
  end.

(** [POST /auth/register]; [uuid] is the fresh [uuid4()], [salt] the
    fresh bcrypt salt, [now] the clock. *)
Definition register (db : DB) (email password name : pystr)
    (uuid salt : pystr) (now : datetime) : result TokenResponse * DB :=
  match Mongo.find_one (user_email_is email) (users db) with
  | Some _ => (HTTPException 400 (u "Email already registered"), db)
  | None =>
    let user_doc :=
      {| u_id := uuid; u_email := email; u_name := name;
         u_password_hash := hash_password password salt;
         u_is_vip := false; u_is_admin := false;
         u_subscription_status := None; u_subscription_id := None;
         u_created_at := isoformat now |} in
    (Ok {| tr_token := create_token uuid now;
           tr_user := user_response user_doc |},
     with_users db (Mongo.insert_one user_doc (users db)))
  end.

(** [POST /auth/login] *)
Definition login (db : DB) (email password : pystr) (now : datetime)
    : result TokenResponse :=
  match Mongo.find_one (user_email_is email) (users db) with
  | None => HTTPException 401 (u "Invalid credentials")
  | Some user =>
    if negb (verify_password password (u_password_hash user))
    then HTTPException 401 (u "Invalid credentials")
    else Ok {| tr_token := create_token (u_id user) now;
               tr_user := user_response user |}
  end.

(** [POST /admin/verify]; [user] is what [get_current_user] returned. *)
Definition verify_admin (db : DB) (code : pystr) (user : User)
    : result (bool * pystr) * DB :=
  if negb (pystr_eqb code (ADMIN_CODE cfg))
  then (HTTPException 403 (u "Invalid admin code"), db)
  else
    (Ok (true, u "Admin access granted"),
     with_users db
       (Mongo.update_one (user_id_is (u_id user)) set_is_admin (users db))).

End Auth.

(* ===================================================================== *)
(** ** Public and VIP listings, statistics *)
(* ===================================================================== *)

(** [BetResponse]: the fields of a bet document the API returns (the
    import marker is not one of them). *)
Record BetResponse := {
  br_id : pystr;
  br_home_team : pystr;
  br_away_team : pystr;
  br_league : pystr;
  br_bet_type : pystr;
  br_odds : float;
  br_stake : Z;
  br_kick_off : pystr;
  br_is_vip : bool;
  br_status : pystr;
  br_home_score : option Z;
  br_away_score : option Z;
  br_created_at : pystr;
  br_date : pystr
}.

Definition bet_response (b : Bet) : BetResponse :=
  {| br_id := b_id b; br_home_team := b_home_team b;
     br_away_team := b_away_team b; br_league := b_league b;
     br_bet_type := b_bet_type b; br_odds := b_odds b;
     br_stake := b_stake b; br_kick_off := b_kick_off b;
     br_is_vip := b_is_vip b; br_status := b_status b;
     br_home_score := b_home_score b; br_away_score := b_away_score b;
     br_created_at := b_created_at b; br_date := b_date b |}.

(** [{"date": today, "is_vip": vip, "status": "pending"}] *)
Definition today_filter (today : pystr) (vip : bool) (b : Bet) : bool :=
  pystr_eqb (b_date b) today && Bool.eqb (b_is_vip b) vip
  && pystr_eqb (b_status b) (u "pending").

(** The documents the two listings read, sorted and cut at 100. *)
Definition today_docs (db : DB) (today : pystr) (vip : bool) : list Bet :=
  Mongo.to_list 100
    (Mongo.sort_asc b_kick_off (Mongo.find (today_filter today vip) (bets db))).

(** [GET /bets/today] *)
Definition get_today_bets (db : DB) (now : datetime) : list BetResponse :=
  map bet_response (today_docs db (ymd now) false).

(** [GET /bets/vip/today]; [user] is what [get_current_user] returned. *)
Definition get_vip_today_bets (db : DB) (user : User) (now : datetime)
    : result (list BetResponse) :=
  if negb (u_is_vip user)
  then HTTPException 403 (u "VIP subscription required")
  else Ok (map bet_response (today_docs db (ymd now) true)).



(** [{"status": {"$in": ["won", "lost"]}}] and [{"status": "won"}] *)
Definition status_settled (b : Bet) : bool :=
  pystr_eqb (b_status b) (u "won") || pystr_eqb (b_status b) (u "lost").






(* ===================================================================== *)
(** ** Payments *)
(* ===================================================================== *)

(** What a call to an outside service does: it raises or it returns. *)
Inductive reply (A : Type) : Type :=
  | Raised (exn : pystr)
  | Returned (a : A).
Arguments Raised {A} exn.
Arguments Returned {A} a.

(** What the payment provider says about a checkout session. *)
Record CheckoutStatus := {
  cs_status : pystr;
  cs_payment_status : pystr;
  cs_amount_total : Z;
  cs_currency : pystr
}.

(** A webhook event the provider's library has verified and decoded. *)
Record WebhookResponse := {
  wr_payment_status : pystr;
  wr_session_id : pystr;
  wr_metadata : option (gmap pystr pystr)
}.

(** The body [stripe_webhook] answers with, always with status 200. *)
Inductive WebhookAnswer :=
  | HookSuccess
  | HookError (message : pystr).

(** The writes the payment handlers issue, in the order of the calls to
    [update_one]: on [payment_transactions] by session id, on [users] by
    user id. *)
Inductive Write :=
  | SetPaid (session_id : pystr)
  | GrantVip (user_id session_id : pystr).

Section Payments.
Context (cfg : Config).

(** [db.payment_transactions.update_one({"session_id": ..}, ..)] *)
Definition mark_paid (db : DB) (session_id : pystr) : DB :=
  with_transactions db
    (Mongo.update_one (session_id_is session_id) set_paid
       (payment_transactions db)).

(** [db.users.update_one({"id": ..}, ..)] *)
Definition grant_access (db : DB) (user_id session_id : pystr) : DB :=
  with_users db
    (Mongo.update_one (user_id_is user_id) (grant_vip session_id)
       (users db)).

(** [GET /checkout/status/{session_id}]; [user] is the caller,
    [provider] what [stripe_checkout.get_checkout_status] did.  The
    third component lists the writes issued. *)
Definition get_checkout_status (db : DB) (session_id : pystr) (user : User)
    (provider : reply CheckoutStatus)
    : result CheckoutStatus * DB * list Write :=
  if negb (configured (STRIPE_API_KEY cfg))
  then (HTTPException 500 (u "Stripe not configured"), db, [])
  else
    match provider with
    | Raised e => (Uncaught e, db, [])
    | Returned status =>
      if pystr_eqb (cs_payment_status status) (u "paid") then
        match Mongo.find_one (session_id_is session_id)
                (payment_transactions db) with
        | Some transaction =>
          if negb (pystr_eqb (t_payment_status transaction) (u "paid"))
          then (Ok status,
                grant_access (mark_paid db session_id)
                  (u_id user) session_id,
                [SetPaid session_id; GrantVip (u_id user) session_id])
          else (Ok status, db, [])
        | None => (Ok status, db, [])
        end
      else (Ok status, db, [])
    end.

(** [POST /webhook/stripe]; [provider] is what
    [stripe_checkout.handle_webhook(body, signature)] did. *)
Definition stripe_webhook (db : DB) (provider : reply WebhookResponse)
    : result WebhookAnswer * DB * list Write :=
  if negb (configured (STRIPE_API_KEY cfg))
  then (HTTPException 500 (u "Stripe not configured"), db, [])
  else
    match provider with
    | Raised e => (Ok (HookError e), db, [])
    | Returned webhook_response =>
      if pystr_eqb (wr_payment_status webhook_response) (u "paid") then
        let session_id := wr_session_id webhook_response in
        let db1 := mark_paid db session_id in
        match wr_metadata webhook_response with
        | Some metadata =>
          match metadata !! u "user_id" with
          | Some user_id =>
            (Ok HookSuccess, grant_access db1 user_id session_id,
             [SetPaid session_id; GrantVip user_id session_id])
          | None => (Ok HookSuccess, db1, [SetPaid session_id])
          end
        | None => (Ok HookSuccess, db1, [SetPaid session_id])
        end
      else (Ok HookSuccess, db, [])
    end.

(** The two ways a paid session reaches the store. *)
Inductive path := ByPoll | ByWebhook.

(** One application of the paid event of a session: the caller [user]
    polls and the provider reports [status], or the provider delivers
    [event].  The first component tells whether the handler returned
    normally. *)
Definition apply_paid (p : path) (db : DB) (session_id : pystr)
    (user : User) (status : CheckoutStatus) (event : WebhookResponse)
    : bool * DB * list Write :=
  match p with
  | ByPoll =>
    let '(r, db', ws) :=
      get_checkout_status db session_id user (Returned status) in
    (match r with Ok _ => true | _ => false end, db', ws)
  | ByWebhook =>
    let '(r, db', ws) := stripe_webhook db (Returned event) in
    (match r with Ok HookSuccess => true | _ => false end, db', ws)
  end.

End Payments.

(* ===================================================================== *)
(** ** Import from the channel *)
(* ===================================================================== *)

(** A post of the channel, as the messaging API delivers it. *)
Record Post := {
  message_id : Z;
  date : Z;
  text : option pystr
}.

Record Update := {
  channel_post : option Post;
  message : option Post
}.

(** The JSON body of [getUpdates]. *)
Record TelegramData := {
  tg_ok : bool;
  tg_description : option pystr;
  tg_result : list Update
}.

(** What the HTTP request to the messaging API did. *)
Inductive http_reply :=
  | RequestError (msg : pystr)
  | Json (data : TelegramData).

Record ImportResult := {
  ir_success : bool;
  ir_imported : nat;
  ir_skipped : nat;
  ir_message : pystr
}.

(** [str(n)] *)
Definition str_of_nat (n : nat) : pystr :=
  u (NilEmpty.string_of_uint (Nat.to_uint n)).

(** [str(x)] for an optional string. *)
Definition str_of_option (o : option pystr) : pystr :=
  match o with Some s => s | None => u "None" end.

(** [{"telegram_message_id": message_id}] *)
Definition telegram_id_is (mid : Z) (b : Bet) : bool :=
  bool_decide (b_telegram_message_id b = Some mid).

Section TelegramImport.
Context `{Collaborators} (cfg : Config).

(** The [i]-th [uuid4()] and the [i]-th reading of the clock. *)
Variable uuid4 : nat -> pystr.
Variable clock : nat -> datetime.

(** [update.get("channel_post") or update.get("message")] *)
Definition post_of (upd : Update) : option Post :=
  match channel_post upd with
  | Some p => Some p
  | None => message upd
  end.

(** The post and its parse, when the loop body gets past its three
    tests. *)
Definition importable (upd : Update) : option (Post * ParsedPick) :=
  match post_of upd with
  | Some post =>
    match text post with
    | Some txt =>
      if truthy txt then
        match parse_telegram_message txt with
        | Some parsed => Some (post, parsed)
        | None => None
        end
      else None
    | None => None
    end
  | None => None
  end.

Definition imported_bet (post : Post) (parsed : ParsedPick) (i : nat)
    : Bet :=
  let post_date := fromtimestamp (date post) in
  {| b_id := uuid4 i;
     b_home_team := pp_home_team parsed;
     b_away_team := pp_away_team parsed;
     b_league := u "Imported";
     b_bet_type := pp_bet_type parsed;
     b_odds := pp_odds parsed;
     b_stake := pp_stake parsed;
     b_kick_off := isoformat post_date;
     b_is_vip := false;
     b_status := if pp_is_won parsed then u "won" else u "lost";
     b_home_score := pp_home_score parsed;
     b_away_score := pp_away_score parsed;
     b_created_at := isoformat (clock i);
     b_date := ymd post_date;
     b_telegram_message_id := Some (message_id post) |}.

(** The state of the loop: the store and the two counters. *)
Record ImportState := {
  is_db : DB;
  imported_count : nat;
  skipped_count : nat
}.

(** One iteration of the loop over the updates. *)
Definition import_step (st : ImportState) (upd : Update) : ImportState :=
  match importable upd with
  | Some (post, parsed) =>
    match Mongo.find_one (telegram_id_is (message_id post))
            (bets (is_db st)) with
    | Some _ =>
      {| is_db := is_db st; imported_count := imported_count st;
         skipped_count := S (skipped_count st) |}
    | None =>
      {| is_db :=
           with_bets (is_db st)
             (Mongo.insert_one
                (imported_bet post parsed (imported_count st))
                (bets (is_db st)));
         imported_count := S (imported_count st);
         skipped_count := skipped_count st |}
    end
  | None => st
  end.

Definition import_loop (db : DB) (updates : list Update) : ImportState :=
  fold_left import_step updates
    {| is_db := db; imported_count := 0; skipped_count := 0 |}.

(** [POST /admin/telegram/import]; [http] is what the request to
    [getUpdates] did. *)
Definition import_from_telegram (db : DB) (http : http_reply)
    : result ImportResult * DB :=
  if negb (configured (TELEGRAM_BOT_TOKEN cfg))
  then (HTTPException 500 (u "Telegram bot not configured"), db)
  else
    match http with
    | RequestError e =>
      (HTTPException 500 (u "Failed to connect to Telegram: " ++ e), db)
    | Json data =>
      if negb (tg_ok data)
      then (HTTPException 500
              (u "Telegram API error: "
                 ++ str_of_option (tg_description data)), db)
      else
        let st := import_loop db (tg_result data) in
        (Ok {| ir_success := true;
               ir_imported := imported_count st;
               ir_skipped := skipped_count st;
               ir_message :=
                 u "Imported " ++ str_of_nat (imported_count st)
                   ++ u " results, skipped "
                   ++ str_of_nat (skipped_count st) ++ u " duplicates" |},
         is_db st)
    end.

End TelegramImport.


(* ===================================================================== *)
(** ** More store primitives *)
(* ===================================================================== *)

Module MongoExt.
Section MoreCollection.
Context {D : Type}.

(** [delete_one(filter)]: the first matching document is removed. *)
Fixpoint delete_one (q : D -> bool) (c : list D) : list D :=
  match c with
  | [] => []
  | d :: c' => if q d then c' else d :: delete_one q c'
  end.

(** [result.deleted_count] of that call. *)
Definition deleted_count (q : D -> bool) (c : list D) : Z :=
  match Mongo.find_one q c with Some _ => 1 | None => 0 end.

(** [update_one(filter, {"$set": ..}, upsert=True)]: the first matching
    document is patched; without a match the document [fresh] (the
    fields of the filter and of the patch) is inserted. *)
Definition upsert_one (q : D -> bool) (set : D -> D) (fresh : D)
    (c : list D) : list D :=
  match Mongo.find_one q c with
  | Some _ => Mongo.update_one q set c
  | None => Mongo.insert_one fresh c
  end.
End MoreCollection.

Section SortDesc.
Context {D : Type} (key : D -> pystr).

Fixpoint insert_desc (x : D) (l : list D) : list D :=
  match l with
  | [] => [x]
  | y :: l' =>
    if Mongo.str_leb (key y) (key x) then x :: l else y :: insert_desc x l'
  end.

(** [.sort(key, -1)]: descending; documents with equal keys keep their
    order. *)
Definition sort_desc (l : list D) : list D := foldr insert_desc [] l.
End SortDesc.

(** The order [sort_desc] establishes: keys in descending order. *)
Definition key_ge {D : Type} (key : D -> pystr) (x y : D) : Prop :=
  Mongo.str_leb (key y) (key x) = true.

End MongoExt.

(* ===================================================================== *)
(** ** Profile, bet administration and result listings *)
(* ===================================================================== *)

(** [GET /auth/me]; [user] is what [get_current_user] returned. *)
Definition get_me (user : User) : UserResponse := user_response user.

Record BetCreate := {
  bc_home_team : pystr;
  bc_away_team : pystr;
  bc_league : pystr;
  bc_bet_type : pystr;
  bc_odds : float;
  bc_stake : Z;
  bc_kick_off : pystr;
  bc_is_vip : bool
}.

Record BetUpdate := {
  bu_status : pystr;
  bu_home_score : option Z;
  bu_away_score : option Z
}.

(** [{"id": bet_id}] *)
Definition bet_id_is (i : pystr) (b : Bet) : bool := pystr_eqb (b_id b) i.

(** [s.replace('Z', '+00:00')] *)
Definition replace_Z (s : pystr) : pystr :=
  concat (map (fun c => if (c =? 90)%N then u "+00:00" else [c]) s).

Section BetAdmin.
(** [datetime.fromisoformat]; [None] is the [ValueError] it raises. *)
Variable fromisoformat : pystr -> option datetime.

(** [POST /admin/bets], past [get_admin_user]; [uuid] is the fresh
    [uuid4()], [now] the clock. *)
Definition create_bet (db : DB) (bet_data : BetCreate) (uuid : pystr)
    (now : datetime) : result BetResponse * DB :=
  match fromisoformat (replace_Z (bc_kick_off bet_data)) with
  | None => (Uncaught (u "ValueError"), db)
  | Some kick_off_date =>
    let bet_doc :=
      {| b_id := uuid;
         b_home_team := bc_home_team bet_data;
         b_away_team := bc_away_team bet_data;
         b_league := bc_league bet_data;
         b_bet_type := bc_bet_type bet_data;
         b_odds := bc_odds bet_data;
         b_stake := bc_stake bet_data;
         b_kick_off := bc_kick_off bet_data;
         b_is_vip := bc_is_vip bet_data;
         b_status := u "pending";
         b_home_score := None;
         b_away_score := None;
         b_created_at := isoformat now;
         b_date := ymd kick_off_date;
         b_telegram_message_id := None |} in
    (Ok (bet_response bet_doc),
     with_bets db (Mongo.insert_one bet_doc (bets db)))
  end.
End BetAdmin.

(** The [$set] of [update_bet_result]: the status always, a score only
    when the request carries it. *)
Definition set_result (upd : BetUpdate) (b : Bet) : Bet :=
  {| b_id := b_id b; b_home_team := b_home_team b;
     b_away_team := b_away_team b; b_league := b_league b;
     b_bet_type := b_bet_type b; b_odds := b_odds b; b_stake := b_stake b;
     b_kick_off := b_kick_off b; b_is_vip := b_is_vip b;
     b_status := bu_status upd;
     b_home_score := match bu_home_score upd with
                     | Some h => Some h
                     | None => b_home_score b
                     end;
     b_away_score := match bu_away_score upd with
                     | Some a => Some a
                     | None => b_away_score b
                     end;
     b_created_at := b_created_at b; b_date := b_date b;
     b_telegram_message_id := b_telegram_message_id b |}.

(** [PUT /admin/bets/{bet_id}], past [get_admin_user]:
    [find_one_and_update] returning the document after the update. *)
Definition update_bet_result (db : DB) (bet_id : pystr) (upd : BetUpdate)
    : result BetResponse * DB :=
  match Mongo.find_one (bet_id_is bet_id) (bets db) with
  | None => (HTTPException 404 (u "Bet not found"), db)
  | Some b =>
    (Ok (bet_response (set_result upd b)),
     with_bets db
       (Mongo.update_one (bet_id_is bet_id) (set_result upd) (bets db)))
  end.

(** [DELETE /admin/bets/{bet_id}], past [get_admin_user]. *)
Definition delete_bet (db : DB) (bet_id : pystr) : result bool * DB :=
  if MongoExt.deleted_count (bet_id_is bet_id) (bets db) =? 0
  then (HTTPException 404 (u "Bet not found"),
        with_bets db (MongoExt.delete_one (bet_id_is bet_id) (bets db)))
  else (Ok true,
        with_bets db (MongoExt.delete_one (bet_id_is bet_id) (bets db))).

(** [GET /admin/bets], past [get_admin_user]. *)
Definition get_all_bets (db : DB) : list BetResponse :=
  map bet_response
    (Mongo.to_list 1000
       (MongoExt.sort_desc b_kick_off
          (Mongo.find (fun _ => true) (bets db)))).

(** [{"status": {"$in": ["won", "lost"]}, "is_vip": vip}] *)
Definition results_filter (vip : bool) (b : Bet) : bool :=
  status_settled b && Bool.eqb (b_is_vip b) vip.

Definition results_docs (db : DB) (vip : bool) : list Bet :=
  Mongo.to_list 100
    (MongoExt.sort_desc b_kick_off
       (Mongo.find (results_filter vip) (bets db))).

(** [GET /bets/results] *)
Definition get_results (db : DB) : list BetResponse :=
  map bet_response (results_docs db false).

(** [GET /bets/vip/results]; [user] is what [get_current_user]
    returned. *)
Definition get_vip_results (db : DB) (user : User)
    : result (list BetResponse) :=
  if negb (u_is_vip user)
  then HTTPException 403 (u "VIP subscription required")
  else Ok (map bet_response (results_docs db true)).

(* ===================================================================== *)
(** ** Starting a checkout *)
(* ===================================================================== *)

(** What the handler sends to the payment provider. *)
Record CheckoutSessionRequest := {
  csr_amount : float;
  csr_currency : pystr;
  csr_success_url : pystr;
  csr_cancel_url : pystr;
  csr_metadata : gmap pystr pystr
}.

(** What the provider returns for a new session. *)
Record CheckoutSession := {
  se_session_id : pystr;
  se_url : pystr
}.

Fixpoint lstrip_slash (s : pystr) : pystr :=
  match s with
  | c :: s' => if (c =? 47)%N then lstrip_slash s' else s
  | [] => []
  end.

(** [s.rstrip('/')] *)
Definition rstrip_slash (s : pystr) : pystr := rev (lstrip_slash (rev s)).

Section Checkout.
Context (cfg : Config).

(** [stripe_checkout.create_checkout_session(request)] of a client built
    with the webhook URL. *)
Variable create_checkout_session :
  pystr -> CheckoutSessionRequest -> reply CheckoutSession.

(** The request [create_checkout] builds for a caller. *)
Definition checkout_request (origin_url : pystr) (user : User)
    : CheckoutSessionRequest :=
  let origin := rstrip_slash origin_url in
  {| csr_amount := py_float (u "9.99");
     csr_currency := u "gbp";
     csr_success_url :=
       origin ++ u "/account?session_id={CHECKOUT_SESSION_ID}";
     csr_cancel_url := origin ++ u "/vip";
     csr_metadata :=
       <[u "user_id" := u_id user]>
         (<[u "user_email" := u_email user]>
            (<[u "subscription_type" := u "vip_monthly"]> ∅)) |}.

(** [POST /checkout/create]; [base_url] is [str(request.base_url)],
    [user] the caller, [uuid] the fresh [uuid4()], [now] the clock. *)
Definition create_checkout (db : DB) (base_url origin_url : pystr)
    (user : User) (uuid : pystr) (now : datetime)
    : result CheckoutSession * DB :=
  if negb (configured (STRIPE_API_KEY cfg))
  then (HTTPException 500 (u "Stripe not configured"), db)
  else
    let webhook_url := rstrip_slash base_url ++ u "/api/webhook/stripe" in
    match create_checkout_session webhook_url
            (checkout_request origin_url user) with
    | Raised e => (Uncaught e, db)
    | Returned session =>
      let transaction_doc :=
        {| t_id := uuid;
           t_session_id := se_session_id session;
           t_user_id := u_id user;
           t_user_email := u_email user;
           t_amount := py_float (u "9.99");
           t_currency := u "gbp";
           t_payment_status := u "pending";
           t_created_at := isoformat now |} in
      (Ok session,
       with_transactions db
         (Mongo.insert_one transaction_doc (payment_transactions db)))
    end.
End Checkout.

(* ===================================================================== *)
(** ** Notifications *)
(* ===================================================================== *)

(** A registration for push notifications; [Keys] is the JSON object the
    browser supplies. *)
Record Subscription (Keys : Type) := {
  ns_user_id : pystr;
  ns_endpoint : pystr;
  ns_keys : Keys;
  ns_subscribed_at : pystr
}.
Arguments ns_user_id {Keys} s.
Arguments ns_endpoint {Keys} s.
Arguments ns_keys {Keys} s.
Arguments ns_subscribed_at {Keys} s.

(** A document of [notifications], which is also the
    [NotificationResponse] made of it. *)
Record Notification := {
  n_id : pystr;
  n_title : pystr;
  n_body : pystr;
  n_notification_type : pystr;
  n_sent_at : pystr;
  n_sent_by : pystr
}.

(** The two collections the notification handlers use. *)
Record NotifDB (Keys : Type) := {
  notification_subscriptions : list (Subscription Keys);
  notifications : list Notification
}.
Arguments notification_subscriptions {Keys} n.
Arguments notifications {Keys} n.

Section Notifications.
Context {Keys : Type}.

(** [{"user_id": ..}] *)
Definition subscriber_is (i : pystr) (s : Subscription Keys) : bool :=
  pystr_eqb (ns_user_id s) i.

(** [POST /notifications/subscribe] *)
Definition subscribe_to_notifications (ndb : NotifDB Keys)
    (endpoint : pystr) (keys : Keys) (user : User) (now : datetime)
    : (bool * pystr) * NotifDB Keys :=
  let doc :=
    {| ns_user_id := u_id user; ns_endpoint := endpoint;
       ns_keys := keys; ns_subscribed_at := isoformat now |} in
  ((true, u "Subscribed to notifications"),
   {| notification_subscriptions :=
        MongoExt.upsert_one (subscriber_is (u_id user)) (fun _ => doc) doc
          (notification_subscriptions ndb);
      notifications := notifications ndb |}).

(** [DELETE /notifications/unsubscribe] *)
Definition unsubscribe_from_notifications (ndb : NotifDB Keys)
    (user : User) : (bool * pystr) * NotifDB Keys :=
  ((true, u "Unsubscribed from notifications"),
   {| notification_subscriptions :=
        MongoExt.delete_one (subscriber_is (u_id user))
          (notification_subscriptions ndb);
      notifications := notifications ndb |}).

(** [GET /notifications/status]: the value of ["subscribed"]. *)
Definition get_notification_status (ndb : NotifDB Keys) (user : User)
    : bool :=
  match Mongo.find_one (subscriber_is (u_id user))
          (notification_subscriptions ndb) with
  | Some _ => true
  | None => false
  end.

(** [GET /admin/notifications/subscribers]: the value of
    ["subscriber_count"]. *)
Definition get_subscriber_count (ndb : NotifDB Keys) : Z :=
  Mongo.count_documents (fun _ => true) (notification_subscriptions ndb).

(** [POST /admin/notifications/send]; [user] is the admin. *)
Definition send_notification (ndb : NotifDB Keys)
    (title body notification_type : pystr) (user : User)
    (uuid : pystr) (now : datetime) : Notification * NotifDB Keys :=
  let doc :=
    {| n_id := uuid; n_title := title; n_body := body;
       n_notification_type := notification_type;
       n_sent_at := isoformat now; n_sent_by := u_id user |} in
  (doc,
   {| notification_subscriptions := notification_subscriptions ndb;
      notifications := Mongo.insert_one doc (notifications ndb) |}).

(** The notifications, latest first, cut at [n]. *)
Definition latest_notifications (n : nat) (ndb : NotifDB Keys)
    : list Notification :=
  Mongo.to_list n
    (MongoExt.sort_desc n_sent_at
       (Mongo.find (fun _ => true) (notifications ndb))).

(** [GET /admin/notifications] *)
Definition get_sent_notifications (ndb : NotifDB Keys) : list Notification :=
  latest_notifications 50 ndb.

(** [GET /notifications/latest] *)
Definition get_latest_notifications (ndb : NotifDB Keys)
    : list Notification :=
  latest_notifications 10 ndb.
End Notifications.

(* ===================================================================== *)
(** ** Previewing the channel and importing one message by hand *)
(* ===================================================================== *)


Section TelegramPreview.
Context `{Collaborators} (cfg : Config).


End TelegramPreview.


(* ===================================================================== *)
(** ** Predicates used in the statements about the parser *)
(* ===================================================================== *)

(** The markets the parser knows. *)
Definition bet_types : list pystr :=
  [u "Over 2.5"; u "Under 2.5"; u "Over 1.5"; u "Under 1.5"; u "Over 3.5";
   u "BTTS Yes"; u "BTTS No"].

(** What holds of the parser's variables all along the loop. *)
Definition pick_wf (st : ParsedPick) : Prop :=
  0 <= pp_stake st <= 10 /\
  (pp_bet_type st = [] \/ pp_bet_type st ∈ bet_types) /\
  (pp_home_score st = None <-> pp_away_score st = None) /\
  (forall h, pp_home_score st = Some h -> 0 <= h) /\
  (forall a, pp_away_score st = Some a -> 0 <= a).

(* ===================================================================== *)
(** ** Relations used in the statements about payments and imports *)
(* ===================================================================== *)

(** A user document after a payment handler, compared with the document
    before: nothing but the subscription fields may differ, and VIP
    access is not taken away. *)
Definition vip_granted_only (old new : User) : Prop :=
  u_id new = u_id old /\ u_email new = u_email old /\
  u_name new = u_name old /\ u_password_hash new = u_password_hash old /\
  u_is_admin new = u_is_admin old /\ u_created_at new = u_created_at old /\
  (u_is_vip old = true -> u_is_vip new = true).

(** A transaction after a payment handler: as it was, or marked paid. *)
Definition paid_only (old new : Transaction) : Prop :=
  new = old \/ new = set_paid old.

(** The message identifiers the stored bets carry. *)
Definition telegram_ids (bs : list Bet) : list Z :=
  omap b_telegram_message_id bs.


(** The filter of the documents whose [key] is [i]. *)
Definition key_is {D : Type} (key : D -> pystr) (i : pystr) (d : D) : bool :=
  pystr_eqb (key d) i.

(* ===================================================================== *)
(** ** Decidable equality of documents *)
(* ===================================================================== *)

#[global] Instance spec_float_eq_dec : EqDecision spec_float.
Proof. solve_decision. Defined.

#[global] Instance User_eq_dec : EqDecision User.
Proof. solve_decision. Defined.

#[global] Instance Bet_eq_dec : EqDecision Bet.
Proof. solve_decision. Defined.

#[global] Instance BetResponse_eq_dec : EqDecision BetResponse.
Proof. solve_decision. Defined.

(* ===================================================================== *)
(** ** Sample data *)
(* ===================================================================== *)

Module Sample.

(** Stand-ins for the libraries, good enough to run the handlers: the hash
    of a password is the salt followed by the length of the password, and
    a token is the user id it carries. *)
Definition libs : Collaborators := {|
  bcrypt_hashpw password salt := salt ++ str_of_nat (length password);
  bcrypt_checkpw password hashed :=
    pystr_eqb hashed (take 2 hashed ++ str_of_nat (length password));
  jwt_encode user_id exp secret := user_id;
  jwt_decode token secret now := JwtPayload (Some token);
  fromtimestamp seconds :=
    {| timestamp := of_int seconds; isoformat := str_of_nat (Z.to_nat seconds);
       ymd := u "2024-05-01" |}
|}.

Definition cfg : Config := {|
  JWT_SECRET := u "the-2.5-syndicate-secret-key-2024";
  ADMIN_CODE := u "syndicate2024";
  STRIPE_API_KEY := Some (u "sk_test");
  TELEGRAM_BOT_TOKEN := Some (u "bot-token")
|}.

Definition noon : datetime := {|
  timestamp := of_int 1714564800;
  isoformat := u "2024-05-01T12:00:00+00:00";
  ymd := u "2024-05-01"
|}.

Definition alice : User := {|
  u_id := u "alice-id"; u_email := u "alice@example.com";
  u_name := u "Alice"; u_password_hash := u "s15";
  u_is_vip := false; u_is_admin := false;
  u_subscription_status := None; u_subscription_id := None;
  u_created_at := u "2024-04-01T09:00:00+00:00"
|}.

Definition bob : User := {|
  u_id := u "bob-id"; u_email := u "bob@example.com";
  u_name := u "Bob"; u_password_hash := u "s26";
  u_is_vip := false; u_is_admin := false;
  u_subscription_status := None; u_subscription_id := None;
  u_created_at := u "2024-04-02T09:00:00+00:00"
|}.

Definition empty_db : DB :=
  {| users := []; bets := []; payment_transactions := [] |}.

Definition two_users : DB :=
  {| users := [alice; bob]; bets := []; payment_transactions := [] |}.

(** The message of the parser's documentation. *)
Definition marseille : pystr :=
  u "Marseille v Rennes" ++ [LF] ++ u "⚽ Over 2.5 Goals ✅" ++ [LF]
    ++ u "📈 Points - 5" ++ [LF] ++ u "📦 Odds - 1.37".

(** A pending checkout of [alice], as [create_checkout] records it. *)
Definition checkout (session : pystr) : Transaction := {|
  t_id := u "tx-" ++ session; t_session_id := session;
  t_user_id := u "alice-id"; t_user_email := u "alice@example.com";
  t_amount := py_float (u "9.99"); t_currency := u "gbp";
  t_payment_status := u "pending";
  t_created_at := u "2024-05-01T11:00:00+00:00"
|}.

Definition two_checkouts : DB :=
  {| users := [alice; bob]; bets := [];
     payment_transactions := [checkout (u "cs_1"); checkout (u "cs_2")] |}.

(** The verified webhook event for a paid session of [alice]. *)
Definition paid_event (session : pystr) : WebhookResponse := {|
  wr_payment_status := u "paid";
  wr_session_id := session;
  wr_metadata := Some (<[u "user_id" := u "alice-id"]>
                       (<[u "subscription_type" := u "vip_monthly"]> ∅))
|}.

Definition paid_status : CheckoutStatus := {|
  cs_status := u "complete"; cs_payment_status := u "paid";
  cs_amount_total := 999; cs_currency := u "gbp"
|}.

(** A bet document with the given start time, tier and status. *)
Definition bet (id kick_off : pystr) (vip : bool) (status : pystr) : Bet := {|
  b_id := id; b_home_team := u "Home"; b_away_team := u "Away";
  b_league := u "Ligue 1"; b_bet_type := u "Over 2.5";
  b_odds := py_float (u "1.80"); b_stake := 5; b_kick_off := kick_off;
  b_is_vip := vip; b_status := status;
  b_home_score := None; b_away_score := None;
  b_created_at := u "2024-05-01T08:00:00+00:00"; b_date := u "2024-05-01";
  b_telegram_message_id := None
|}.




(** Three won picks and a lost one, on both tiers. *)
Definition three_won_one_lost : DB :=
  {| users := [];
     bets := [bet (u "1") (u "a") false (u "won");
              bet (u "2") (u "b") true (u "lost");
              bet (u "3") (u "c") true (u "won");
              bet (u "4") (u "d") false (u "won");
              bet (u "5") (u "e") false (u "pending")];
     payment_transactions := [] |}.

(** Two posts of the channel, the second one does not parse. *)
Definition post (mid : Z) (txt : pystr) : Update :=
  {| channel_post := Some {| message_id := mid; date := 1714564800;
                             text := Some txt |};
     message := None |}.


Definition uuid4 (i : nat) : pystr := u "uuid-" ++ str_of_nat i.
Definition clock (_ : nat) : datetime := noon.




End Sample.

(* ===================================================================== *)
(** ** More sample data *)
(* ===================================================================== *)

Module Demo.

(** A stand-in for [datetime.fromisoformat]: it refuses a string shorter
    than a date and takes the first ten characters as the date. *)
Definition fromisoformat (s : pystr) : option datetime :=
  if (length s <? 10)%nat then None
  else Some {| timestamp := of_int 0; isoformat := s; ymd := take 10 s |}.

Definition evening_pick : BetCreate := {|
  bc_home_team := u "Lens"; bc_away_team := u "Lille";
  bc_league := u "Ligue 1"; bc_bet_type := u "Over 2.5";
  bc_odds := py_float (u "1.95"); bc_stake := 7;
  bc_kick_off := u "2024-05-01T19:00:00Z"; bc_is_vip := false
|}.

(** A settlement that carries the home score only. *)
Definition home_score_only : BetUpdate :=
  {| bu_status := u "won"; bu_home_score := Some 3; bu_away_score := None |}.

(** The payment provider opens session "cs_7" for whatever it is
    asked. *)
Definition create_checkout_session (webhook_url : pystr)
    (request : CheckoutSessionRequest) : reply CheckoutSession :=
  Returned {| se_session_id := u "cs_7";
              se_url := u "https://pay.example/cs_7" |}.

(** The paid event of the session a checkout request opened: it carries
    the metadata of the request. *)
Definition paid_event_of (session : pystr) (request : CheckoutSessionRequest)
    : WebhookResponse :=
  {| wr_payment_status := u "paid"; wr_session_id := session;
     wr_metadata := Some (csr_metadata request) |}.

(** A batch in which two posts carry the same identifier. *)
Definition repeated_id : TelegramData :=
  {| tg_ok := true; tg_description := None;
     tg_result := [Sample.post 41 Sample.marseille;
                   Sample.post 41 Sample.marseille] |}.

(** The push keys of a browser, as a list of named strings. *)
Definition browser_keys : list (pystr * pystr) :=
  [(u "p256dh", u "BPk"); (u "auth", u "k9")].

(** [alice] is registered for notifications; two were sent. *)
Definition notif_db : NotifDB (list (pystr * pystr)) :=
  {| notification_subscriptions :=
       [{| ns_user_id := u "alice-id";
           ns_endpoint := u "https://push.example/a";
           ns_keys := browser_keys;
           ns_subscribed_at := u "2024-04-30T10:00:00+00:00" |}];
     notifications :=
       [{| n_id := u "n-1"; n_title := u "Bets are live";
           n_body := u "Three picks today";
           n_notification_type := u "bets_live";
           n_sent_at := u "2024-04-30T09:00:00+00:00";
           n_sent_by := u "bob-id" |};
        {| n_id := u "n-2"; n_title := u "Results";
           n_body := u "Two won"; n_notification_type := u "results";
           n_sent_at := u "2024-04-30T22:00:00+00:00";
           n_sent_by := u "bob-id" |}] |}.

End Demo.

(* ===================================================================== *)
(** ** The parser on the documented message *)
(* ===================================================================== *)

(** The binary64 number nearest to 1.37. *)
Lemma float_1_37 :
  py_float (u "1.37") = S754_finite false 6169931489497580 (-52).
Proof. vm_compute. reflexivity. Qed.

(** C4. [parse_telegram_message] on the four lines "Marseille v Rennes",
    ball "Over 2.5 Goals" check, chart "Points - 5", package "Odds - 1.37"
    returns home team "Marseille", away team "Rennes", bet type
    "Over 2.5", stake 5, odds 1.37 (as a binary64 number), won, and no
    scores. *)
Theorem parse_marseille_message :
  parse_telegram_message
    (u "Marseille v Rennes" ++ [LF] ++ u "⚽ Over 2.5 Goals ✅" ++ [LF]
       ++ u "📈 Points - 5" ++ [LF] ++ u "📦 Odds - 1.37")
  = Some {| pp_home_team := u "Marseille";
            pp_away_team := u "Rennes";
            pp_bet_type := u "Over 2.5";
            pp_stake := 5;
            pp_odds := py_float (u "1.37");
            pp_is_won := true;
            pp_home_score := None;
            pp_away_score := None |}.
Proof. vm_compute. reflexivity. Qed.

(** A settled message in the other layout: [' vs '] between the teams, a
    result line with the cross mark, a final score. *)
Example parse_lost_with_score :
  parse_telegram_message
    (u "Liverpool vs Man Utd" ++ [LF] ++ u "Under 2.5" ++ [LF]
       ++ u "❌ Result - Lost" ++ [LF] ++ u "FT: 2-1")
  = Some {| pp_home_team := u "Liverpool";
            pp_away_team := u "Man Utd";
            pp_bet_type := u "Under 2.5";
            pp_stake := 5;
            pp_odds := py_float (u "1.80");
            pp_is_won := false;
            pp_home_score := Some 2;
            pp_away_score := Some 1 |}.
Proof. vm_compute. reflexivity. Qed.

(** The stake is cut at 10, and a result line overrides the check mark of
    the bet line. *)
Example parse_stake_cut_and_override :
  (fun p => (pp_stake p, pp_is_won p)) <$>
    parse_telegram_message
      (u "Lyon v Nice" ++ [LF] ++ u "⚽ BTTS ✅" ++ [LF]
         ++ u "📈 Points - 25" ++ [LF] ++ u "Result - Loss")
  = Some (10, false).
Proof. vm_compute. reflexivity. Qed.

(** Without a bet type there is nothing to return. *)
Example parse_without_bet_type :
  parse_telegram_message (u "Marseille v Rennes" ++ [LF] ++ u "📈 Points - 5")
  = None.
Proof. vm_compute. reflexivity. Qed.

(* ===================================================================== *)
(** ** Facts about the store primitives *)
(* ===================================================================== *)

Section MongoFacts.
Context {D : Type}.
Implicit Types (q : D -> bool) (c : list D).

Lemma find_one_Some q c d :
  Mongo.find_one q c = Some d -> d ∈ c /\ q d = true.
Proof.
  induction c as [|x c IH]; simpl; [discriminate|].
  destruct (q x) eqn:Hq.
  - intros [= ->]. split; [left | exact Hq].
  - intros Hf. destruct (IH Hf) as [Hin Hd]. split; [by right | exact Hd].
Qed.

Lemma find_one_None q c :
  Mongo.find_one q c = None <-> Forall (fun d => q d = false) c.
Proof.
  induction c as [|x c IH]; simpl.
  - split; [constructor | reflexivity].
  - destruct (q x) eqn:Hq.
    + split; [discriminate|]. intros Hall.
      apply Forall_cons in Hall as [Hx _]. congruence.
    + rewrite IH. split.
      * intros Hall. by constructor.
      * intros Hall. by apply Forall_cons in Hall as [_ Hall].
Qed.

Lemma find_one_app q c1 c2 :
  Mongo.find_one q (c1 ++ c2) =
    match Mongo.find_one q c1 with
    | Some d => Some d
    | None => Mongo.find_one q c2
    end.
Proof.
  induction c1 as [|x c1 IH]; simpl; [reflexivity|].
  destruct (q x); [reflexivity | exact IH].
Qed.


(** Without a match the update leaves the collection alone. *)
Lemma update_one_no_match q set c :
  Mongo.find_one q c = None -> Mongo.update_one q set c = c.
Proof.
  induction c as [|x c IH]; simpl; [reflexivity|].
  destruct (q x); [discriminate|]. intros Hf. by rewrite IH.
Qed.

(** A patch that changes nothing in the matched document. *)
Lemma update_one_fixed q set c :
  (forall d, d ∈ c -> q d = true -> set d = d) ->
  Mongo.update_one q set c = c.
Proof.
  induction c as [|x c IH]; simpl; [reflexivity|]. intros Hfix.
  destruct (q x) eqn:Hq.
  - rewrite Hfix; [reflexivity | left | exact Hq].
  - rewrite IH; [reflexivity|]. intros d Hd. apply Hfix. by right.
Qed.

(** The matched document after the update, when the patch keeps it a
    match. *)
Lemma find_one_update_one q set c :
  (forall d, q (set d) = q d) ->
  Mongo.find_one q (Mongo.update_one q set c) = set <$> Mongo.find_one q c.
Proof.
  intros Hkeep. induction c as [|x c IH]; simpl; [reflexivity|].
  destruct (q x) eqn:Hq; simpl.
  - by rewrite Hkeep, Hq.
  - by rewrite Hq.
Qed.

(** A query the patch does not disturb and that excludes the matched
    documents sees the collection as it was. *)
Lemma find_one_update_one_other q q' set c :
  (forall d, q d = true -> q' d = false) ->
  (forall d, q' (set d) = q' d) ->
  Mongo.find_one q' (Mongo.update_one q set c) = Mongo.find_one q' c.
Proof.
  intros Hex Hkeep. induction c as [|x c IH]; simpl; [reflexivity|].
  destruct (q x) eqn:Hq; simpl.
  - by rewrite Hkeep, (Hex x Hq).
  - by rewrite IH.
Qed.

(** Position by position, the update changes at most documents that
    match the filter. *)
Lemma update_one_pointwise q set c :
  Forall2 (fun old new => new = old \/ (q old = true /\ new = set old))
          c (Mongo.update_one q set c).
Proof.
  induction c as [|x c IH]; simpl; [constructor|].
  destruct (q x) eqn:Hq.
  - constructor; [by right|]. apply Forall2_same_length_lookup_2; [done|].
    intros i a b Ha Hb. left. congruence.
  - constructor; [by left | exact IH].
Qed.

End MongoFacts.

Lemma pystr_eqb_eq (a b : pystr) : pystr_eqb a b = true <-> a = b.
Proof. unfold pystr_eqb. apply bool_decide_eq_true. Qed.

Lemma pystr_eqb_neq (a b : pystr) : pystr_eqb a b = false <-> a <> b.
Proof. unfold pystr_eqb. apply bool_decide_eq_false. Qed.

Lemma pystr_eqb_refl (a : pystr) : pystr_eqb a a = true.
Proof. by apply pystr_eqb_eq. Qed.

(* ===================================================================== *)
(** ** Login, registration, sessions and elevation *)
(* ===================================================================== *)



(** Every failure of [login] is that one exception. *)
Lemma login_fails_only_one_way `{Collaborators} (cfg : Config) (db : DB)
    (email password : pystr) (now : datetime) :
  (exists r, login cfg db email password now = Ok r) \/
  login cfg db email password now
    = HTTPException 401 (u "Invalid credentials").
Proof.
  unfold login. destruct (Mongo.find_one _ _) as [user|]; [|by right].
  destruct (verify_password _ _); simpl; [left; eauto | by right].
Qed.

Lemma user_id_is_set_is_admin (i : pystr) (x : User) :
  user_id_is i (set_is_admin x) = user_id_is i x.
Proof. reflexivity. Qed.

Lemma user_id_is_grant_vip (i s : pystr) (x : User) :
  user_id_is i (grant_vip s x) = user_id_is i x.
Proof. reflexivity. Qed.

Lemma user_id_is_true (i : pystr) (x : User) :
  user_id_is i x = true <-> u_id x = i.
Proof. apply pystr_eqb_eq. Qed.

(** C7. [verify_admin] with the configured code succeeds and turns
    [is_admin] on in the caller's document, every document of another
    user and every other field staying as they were; with any other code
    it raises 403 "Invalid admin code" and the store is unchanged, so the
    flag keeps its value. *)
Theorem verify_admin_elevates_caller_only (cfg : Config) (db : DB)
    (code : pystr) (user : User) :
  Mongo.find_one (user_id_is (u_id user)) (users db) = Some user ->
  (code = ADMIN_CODE cfg ->
     let (r, db') := verify_admin cfg db code user in
     r = Ok (true, u "Admin access granted") /\
     Mongo.find_one (user_id_is (u_id user)) (users db')
       = Some (set_is_admin user) /\
     u_is_admin (set_is_admin user) = true /\
     Forall2 (fun old new =>
                new = old \/ (u_id old = u_id user /\ new = set_is_admin old))
             (users db) (users db') /\
     bets db' = bets db /\
     payment_transactions db' = payment_transactions db) /\
  (code <> ADMIN_CODE cfg ->
     verify_admin cfg db code user
       = (HTTPException 403 (u "Invalid admin code"), db)).
Proof.
  intros Hfound. split; intros Hcode; unfold verify_admin.
  - subst code. rewrite pystr_eqb_refl. simpl.
    split; [reflexivity|]. split.
    { rewrite find_one_update_one by apply user_id_is_set_is_admin.
      by rewrite Hfound. }
    split; [reflexivity|]. split; [|done].
    eapply Forall2_impl; [apply update_one_pointwise|].
    intros old new [-> | [Hq ->]]; [by left | right].
    split; [by apply user_id_is_true | reflexivity].
  - apply pystr_eqb_neq in Hcode. by rewrite Hcode.
Qed.

Lemma verify_admin_elevates_caller_only_witness :
  (let (r, db') :=
     verify_admin Sample.cfg Sample.two_users (u "syndicate2024")
                  Sample.alice in
   r = Ok (true, u "Admin access granted") /\
   Mongo.find_one (user_id_is (u "alice-id")) (users db')
     = Some (set_is_admin Sample.alice) /\
   Mongo.find_one (user_id_is (u "bob-id")) (users db') = Some Sample.bob)
  /\ verify_admin Sample.cfg Sample.two_users (u "letmein") Sample.alice
     = (HTTPException 403 (u "Invalid admin code"), Sample.two_users).
Proof.
  destruct (verify_admin_elevates_caller_only Sample.cfg Sample.two_users
              (u "syndicate2024") Sample.alice eq_refl) as [Hgood _].
  destruct (verify_admin_elevates_caller_only Sample.cfg Sample.two_users
              (u "letmein") Sample.alice eq_refl) as [_ Hbad].
  split.
  - specialize (Hgood eq_refl).
    destruct (verify_admin Sample.cfg Sample.two_users (u "syndicate2024")
                Sample.alice) as [r db'] eqn:Hrun.
    destruct Hgood as (Hr & Hme & _).
    split; [exact Hr|]. split; [exact Hme|].
    injection Hrun as _ <-. reflexivity.
  - apply Hbad. vm_compute. discriminate.
Defined.

(** C8. [register] with an email some stored user already has raises 400
    "Email already registered" and leaves the store unchanged; with a new
    email it appends one user document whose [password_hash] is the
    bcrypt hash of the password under the fresh salt, after which a
    second registration of the email is refused; and the outcome depends
    on the password only through that hash. *)
Theorem register_duplicate_and_hash `{Collaborators} (cfg : Config)
    (db : DB) (email password name uuid salt : pystr) (now : datetime) :
  (forall existing,
     Mongo.find_one (user_email_is email) (users db) = Some existing ->
     register cfg db email password name uuid salt now
       = (HTTPException 400 (u "Email already registered"), db)) /\
  (Mongo.find_one (user_email_is email) (users db) = None ->
     exists response user_doc,
       register cfg db email password name uuid salt now
         = (Ok response,
            with_users db (users db ++ [user_doc])) /\
       u_email user_doc = email /\
       u_password_hash user_doc = bcrypt_hashpw password salt /\
       u_is_vip user_doc = false /\ u_is_admin user_doc = false /\
       forall password' name' uuid' salt' now',
         register cfg (with_users db (users db ++ [user_doc]))
                  email password' name' uuid' salt' now'
           = (HTTPException 400 (u "Email already registered"),
              with_users db (users db ++ [user_doc]))) /\
  (forall password',
     bcrypt_hashpw password salt = bcrypt_hashpw password' salt ->
     register cfg db email password name uuid salt now
       = register cfg db email password' name uuid salt now).
Proof.
  split; [|split].
  - intros existing Hex. unfold register. by rewrite Hex.
  - intros Hnew. unfold register. rewrite Hnew.
    eexists _, _. split; [reflexivity|]. simpl.
    repeat (split; [reflexivity|]).
    intros password' name' uuid' salt' now'. simpl.
    rewrite find_one_app, Hnew. simpl.
    unfold user_email_is at 1. simpl. by rewrite pystr_eqb_refl.
  - intros password' Hhash. unfold register, hash_password.
    by rewrite Hhash.
Qed.

Lemma register_duplicate_and_hash_witness :
  register (H := Sample.libs) Sample.cfg Sample.two_users
           (u "alice@example.com") (u "hunter2") (u "Alice again")
           (u "uuid-9") (u "s3") Sample.noon
    = (HTTPException 400 (u "Email already registered"), Sample.two_users)
  /\ (exists response user_doc,
        register (H := Sample.libs) Sample.cfg Sample.two_users
                 (u "carol@example.com") (u "hunter2") (u "Carol")
                 (u "uuid-9") (u "s3") Sample.noon
          = (Ok response,
             with_users Sample.two_users
               (users Sample.two_users ++ [user_doc])) /\
        u_password_hash user_doc = u "s37")
  /\ register (H := Sample.libs) Sample.cfg Sample.two_users
              (u "carol@example.com") (u "hunter2") (u "Carol")
              (u "uuid-9") (u "s3") Sample.noon
     = register (H := Sample.libs) Sample.cfg Sample.two_users
                (u "carol@example.com") (u "2retnuh") (u "Carol")
                (u "uuid-9") (u "s3") Sample.noon.
Proof.
  split; [|split].
  - pose proof (register_duplicate_and_hash (H := Sample.libs)
                  Sample.cfg Sample.two_users (u "alice@example.com")
                  (u "hunter2") (u "Alice again") (u "uuid-9") (u "s3")
                  Sample.noon) as (Hdup & _ & _).
    apply (Hdup Sample.alice). reflexivity.
  - pose proof (register_duplicate_and_hash (H := Sample.libs)
                  Sample.cfg Sample.two_users (u "carol@example.com")
                  (u "hunter2") (u "Carol") (u "uuid-9") (u "s3")
                  Sample.noon) as (_ & Hnew & _).
    destruct (Hnew eq_refl) as (response & user_doc & Hrun & _ & Hhash & _).
    exists response, user_doc. split; [exact Hrun|].
    rewrite Hhash. reflexivity.
  - pose proof (register_duplicate_and_hash (H := Sample.libs)
                  Sample.cfg Sample.two_users (u "carol@example.com")
                  (u "hunter2") (u "Carol") (u "uuid-9") (u "s3")
                  Sample.noon) as (_ & _ & Hsame).
    apply Hsame. reflexivity.
Defined.

(** Splitting at blanks a piece that has none. *)
Lemma split_go_no_blank (acc s : pystr) :
  32%N ∉ s ->
  split_go (startswith (u " ")) 1 0 acc s = [rev acc ++ s].
Proof.
  revert acc. induction s as [|c s IH]; intros acc Hno.
  - simpl. by rewrite app_nil_r.
  - apply not_elem_of_cons in Hno as [Hc Hs].
    cbn [split_go].
    replace (startswith (u " ") (c :: s)) with false.
    + rewrite IH by done. simpl. by rewrite <- app_assoc.
    + symmetry. change (startswith (u " ") (c :: s)) with ((32 =? c)%N && true).
      rewrite andb_true_r. apply N.eqb_neq. congruence.
Qed.

(** The token [get_current_user] takes from a header "Bearer <token>". *)
Lemma bearer_token (token : pystr) :
  32%N ∉ token ->
  split (u " ") (u "Bearer " ++ token) !! 1%nat = Some token.
Proof.
  intros Hno. unfold split.
  change (split_go (startswith (u " ")) (length (u " ")) 0 []
            (u "Bearer " ++ token))
    with (u "Bearer" :: split_go (startswith (u " ")) 1 0 [] token).
  by rewrite split_go_no_blank.
Qed.

(** What [get_current_user] does with a token that decodes. *)
Lemma get_current_user_bearer `{Collaborators} (cfg : Config)
    (db : DB) (token uid : pystr) (now : datetime) :
  32%N ∉ token ->
  jwt_decode token (JWT_SECRET cfg) now = JwtPayload (Some uid) ->
  get_current_user cfg db (Some (u "Bearer " ++ token)) now
    = match Mongo.find_one (user_id_is uid) (users db) with
      | Some user => Ok user
      | None => HTTPException 401 (u "User not found")
      end.
Proof.
  intros Hno Hdec. unfold get_current_user.
  change (truthy (u "Bearer " ++ token)) with true.
  change (startswith (u "Bearer ") (u "Bearer " ++ token)) with true.
  simpl negb. simpl orb. cbv iota.
  rewrite bearer_token by exact Hno. simpl default. by rewrite Hdec.
Qed.

(** C9, as the code has it.  Decoding the token (signature and expiry) is
    a function of the token, the secret and the clock alone; but for a
    token that decodes, [get_current_user] then reads the user store: it
    returns the stored document of the token's user, and raises 401
    "User not found" when the store has none. *)
Theorem get_current_user_valid_token `{Collaborators} (cfg : Config)
    (db : DB) (token uid : pystr) (now : datetime) :
  32%N ∉ token ->
  jwt_decode token (JWT_SECRET cfg) now = JwtPayload (Some uid) ->
  get_current_user cfg db (Some (u "Bearer " ++ token)) now
    = match Mongo.find_one (user_id_is uid) (users db) with
      | Some user => Ok user
      | None => HTTPException 401 (u "User not found")
      end.
Proof. apply get_current_user_bearer. Qed.

Lemma no_blank_in_bob_id : 32%N ∉ u "bob-id".
Proof.
  vm_compute. intros Hin.
  repeat (apply elem_of_cons in Hin as [Hin|Hin]; [discriminate|]).
  by apply elem_of_nil in Hin.
Qed.

Lemma get_current_user_valid_token_witness :
  get_current_user (H := Sample.libs) Sample.cfg Sample.two_users
                   (Some (u "Bearer " ++ u "bob-id")) Sample.noon
    = Ok Sample.bob.
Proof.
  rewrite (get_current_user_valid_token (H := Sample.libs) Sample.cfg
             Sample.two_users (u "bob-id") (u "bob-id") Sample.noon
             no_blank_in_bob_id eq_refl).
  reflexivity.
Defined.

(** C9, as stated, fails: the same token, valid under the same secret at
    the same instant, resolves to a user on one store and is refused on
    another. *)
Lemma session_outcome_depends_on_store :
  jwt_decode (Collaborators := Sample.libs) (u "alice-id")
             (JWT_SECRET Sample.cfg) Sample.noon
    = JwtPayload (Some (u "alice-id"))
  /\ get_current_user (H := Sample.libs) Sample.cfg Sample.two_users
       (Some (u "Bearer alice-id")) Sample.noon = Ok Sample.alice
  /\ get_current_user (H := Sample.libs) Sample.cfg Sample.empty_db
       (Some (u "Bearer alice-id")) Sample.noon
     = HTTPException 401 (u "User not found").
Proof. repeat split. Qed.

(** Whatever the libraries are, a token that decodes is refused on a
    store without its user. *)
Lemma valid_token_without_user `{Collaborators} (cfg : Config)
    (token uid : pystr) (now : datetime) (db : DB) :
  32%N ∉ token ->
  jwt_decode token (JWT_SECRET cfg) now = JwtPayload (Some uid) ->
  Mongo.find_one (user_id_is uid) (users db) = None ->
  get_current_user cfg db (Some (u "Bearer " ++ token)) now
    = HTTPException 401 (u "User not found").
Proof.
  intros Hno Hdec Hnone.
  rewrite (get_current_user_bearer cfg db token uid now Hno Hdec).
  by rewrite Hnone.
Qed.

(* ===================================================================== *)
(** ** Payments: the webhook and the status poll *)
(* ===================================================================== *)

Lemma session_id_is_set_paid (s : pystr) (t : Transaction) :
  session_id_is s (set_paid t) = session_id_is s t.
Proof. reflexivity. Qed.




(** The webhook handler on a verified paid event that names a user. *)
Lemma stripe_webhook_paid (cfg : Config) (db : DB) (event : WebhookResponse)
    (metadata : gmap pystr pystr) (uid : pystr) :
  configured (STRIPE_API_KEY cfg) = true ->
  wr_payment_status event = u "paid" ->
  wr_metadata event = Some metadata ->
  metadata !! u "user_id" = Some uid ->
  stripe_webhook cfg db (Returned event)
    = (Ok HookSuccess,
       grant_access (mark_paid db (wr_session_id event)) uid
         (wr_session_id event),
       [SetPaid (wr_session_id event); GrantVip uid (wr_session_id event)]).
Proof.
  intros Hcfg Hpaid Hmeta Huid. unfold stripe_webhook.
  rewrite Hcfg, Hpaid, Hmeta, pystr_eqb_refl. cbn [negb].
  by rewrite Huid.
Qed.

(** The poll handler when the provider reports the session paid. *)
Lemma get_checkout_status_paid (cfg : Config) (db : DB) (s : pystr)
    (user : User) (status : CheckoutStatus) :
  configured (STRIPE_API_KEY cfg) = true ->
  cs_payment_status status = u "paid" ->
  get_checkout_status cfg db s user (Returned status)
    = match Mongo.find_one (session_id_is s) (payment_transactions db) with
      | Some transaction =>
        if pystr_eqb (t_payment_status transaction) (u "paid")
        then (Ok status, db, [])
        else (Ok status, grant_access (mark_paid db s) (u_id user) s,
              [SetPaid s; GrantVip (u_id user) s])
      | None => (Ok status, db, [])
      end.
Proof.
  intros Hcfg Hpaid. unfold get_checkout_status.
  rewrite Hcfg, Hpaid, pystr_eqb_refl. cbn [negb].
  destruct (Mongo.find_one _ _) as [t|]; [|reflexivity].
  by destruct (pystr_eqb (t_payment_status t) (u "paid")).
Qed.

(** C10. A verified paid webhook event whose metadata names a stored user
    makes that user VIP, with subscription status "active" and the
    session id as subscription id, also when no payment transaction with
    that session id is stored; the transactions are left as they were. *)
Theorem webhook_grants_without_transaction (cfg : Config) (db : DB)
    (event : WebhookResponse) (metadata : gmap pystr pystr)
    (uid : pystr) (user : User) :
  configured (STRIPE_API_KEY cfg) = true ->
  wr_payment_status event = u "paid" ->
  wr_metadata event = Some metadata ->
  metadata !! u "user_id" = Some uid ->
  Mongo.find_one (user_id_is uid) (users db) = Some user ->
  Mongo.find_one (session_id_is (wr_session_id event))
    (payment_transactions db) = None ->
  exists db' ws user',
    stripe_webhook cfg db (Returned event) = (Ok HookSuccess, db', ws) /\
    Mongo.find_one (user_id_is uid) (users db') = Some user' /\
    u_is_vip user' = true /\
    u_subscription_status user' = Some (u "active") /\
    u_subscription_id user' = Some (wr_session_id event) /\
    user' = grant_vip (wr_session_id event) user /\
    payment_transactions db' = payment_transactions db.
Proof.
  intros Hcfg Hpaid Hmeta Huid Huser Hnotx.
  eexists _, _, (grant_vip (wr_session_id event) user).
  split; [by apply (stripe_webhook_paid cfg db event metadata uid)|].
  simpl. split.
  { rewrite find_one_update_one by (intros d; apply user_id_is_grant_vip).
    by rewrite Huser. }
  repeat (split; [reflexivity|]).
  by apply update_one_no_match.
Qed.

Lemma webhook_grants_without_transaction_witness :
  exists db' ws user',
    stripe_webhook Sample.cfg Sample.two_users
      (Returned (Sample.paid_event (u "cs_9"))) = (Ok HookSuccess, db', ws) /\
    Mongo.find_one (user_id_is (u "alice-id")) (users db') = Some user' /\
    u_is_vip user' = true /\
    payment_transactions db' = [].
Proof.
  destruct (webhook_grants_without_transaction Sample.cfg Sample.two_users
              (Sample.paid_event (u "cs_9"))
              (<[u "user_id" := u "alice-id"]>
                 (<[u "subscription_type" := u "vip_monthly"]> ∅))
              (u "alice-id") Sample.alice
              eq_refl eq_refl eq_refl eq_refl eq_refl eq_refl)
    as (db' & ws & user' & Hrun & Hfind & Hvip & _ & _ & _ & Htx).
  exists db', ws, user'. repeat split; assumption.
Defined.

(** One application of the paid event of a session whose stored
    transaction is not paid yet: both paths mark it paid and grant. *)
Lemma apply_paid_pending (cfg : Config) (p : path) (db : DB) (s : pystr)
    (user : User) (status : CheckoutStatus) (event : WebhookResponse)
    (metadata : gmap pystr pystr) (t : Transaction) :
  configured (STRIPE_API_KEY cfg) = true ->
  cs_payment_status status = u "paid" ->
  wr_payment_status event = u "paid" ->
  wr_session_id event = s ->
  wr_metadata event = Some metadata ->
  metadata !! u "user_id" = Some (u_id user) ->
  Mongo.find_one (session_id_is s) (payment_transactions db) = Some t ->
  t_payment_status t <> u "paid" ->
  apply_paid cfg p db s user status event
    = (true, grant_access (mark_paid db s) (u_id user) s,
       [SetPaid s; GrantVip (u_id user) s]).
Proof.
  intros Hcfg Hst Hev Hs Hmeta Huid Htx Hpending.
  unfold apply_paid. destruct p.
  - rewrite get_checkout_status_paid by assumption. rewrite Htx.
    apply pystr_eqb_neq in Hpending. by rewrite Hpending.
  - rewrite (stripe_webhook_paid cfg db event metadata (u_id user))
      by assumption.
    by rewrite Hs.
Qed.





(* ===================================================================== *)
(** ** Statistics *)
(* ===================================================================== *)

(** [round_half_even] returns an integer at distance at most one half
    from the quotient. *)
Lemma round_half_even_nearest (num den : Z) :
  0 < den ->
  Z.abs (2 * (num - round_half_even num den * den)) <= den.
Proof.
  intros Hden. unfold round_half_even.
  pose proof (Z.div_mod num den ltac:(lia)) as Hdm.
  pose proof (Z.mod_pos_bound num den Hden) as Hr.
  destruct (Z.compare_spec (2 * (num mod den)) den) as [Heq | Hlt | Hgt].
  - destruct (Z.even (num / den)); nia.
  - nia.
  - nia.
Qed.

Lemma round_half_even_nonneg (num den : Z) :
  0 <= num -> 0 < den -> 0 <= round_half_even num den.
Proof.
  intros Hnum Hden. unfold round_half_even.
  assert (0 <= num / den) by (apply Z.div_pos; lia).
  destruct (2 * (num mod den) ?= den); [destruct (Z.even _)| |]; lia.
Qed.

(** [round(x, 1)] of a finite float is the float nearest to a whole
    number [n] of tenths, and no whole number of tenths is nearer to the
    exact value of [x] than [n]. *)
Lemma py_round1_nearest_tenth (s : bool) (m : positive) (e : Z) :
  exists n : Z,
    0 <= n /\
    py_round1 (S754_finite s m e) = tenths s n /\
    Z.abs (2 * (10 * Zpos m * 2 ^ Z.max e 0 - n * 2 ^ Z.max (- e) 0))
      <= 2 ^ Z.max (- e) 0.
Proof.
  exists (round_half_even (10 * Zpos m * 2 ^ Z.max e 0) (2 ^ Z.max (- e) 0)).
  assert (0 < 2 ^ Z.max (- e) 0) by (apply Z.pow_pos_nonneg; lia).
  assert (0 < 2 ^ Z.max e 0) by (apply Z.pow_pos_nonneg; lia).
  split; [apply round_half_even_nonneg; nia|].
  split; [reflexivity|].
  by apply round_half_even_nearest.
Qed.



Lemma count_documents_nonneg {D : Type} (q : D -> bool) (c : list D) :
  0 <= Mongo.count_documents q c.
Proof. unfold Mongo.count_documents. lia. Qed.



(* ===================================================================== *)
(** ** The listings of the day *)
(* ===================================================================== *)

Lemma str_compare_antisym (a b : pystr) :
  Mongo.str_compare b a = CompOpp (Mongo.str_compare a b).
Proof.
  revert b. induction a as [|x a IH]; intros [|y b]; simpl; try reflexivity.
  rewrite (N.compare_antisym x y).
  destruct (x ?= y)%N; simpl; [apply IH | reflexivity | reflexivity].
Qed.

Lemma str_leb_total (a b : pystr) :
  Mongo.str_leb a b = false -> Mongo.str_leb b a = true.
Proof.
  unfold Mongo.str_leb. rewrite (str_compare_antisym a b).
  by destruct (Mongo.str_compare a b).
Qed.

Lemma str_compare_Eq (a b : pystr) : Mongo.str_compare a b = Eq -> a = b.
Proof.
  revert b. induction a as [|x a IH]; intros [|y b]; simpl; try done.
  destruct (N.compare_spec x y) as [-> | |]; try done.
  intros Heq. by rewrite (IH b Heq).
Qed.

Lemma str_compare_Lt_trans (a b c : pystr) :
  Mongo.str_compare a b = Lt -> Mongo.str_compare b c = Lt ->
  Mongo.str_compare a c = Lt.
Proof.
  revert b c. induction a as [|x a IH]; intros [|y b] [|z c]; simpl; try done.
  destruct (x ?= y)%N eqn:Hxy; [|  |done];
    destruct (y ?= z)%N eqn:Hyz; try done.
  - apply N.compare_eq in Hxy, Hyz. subst. rewrite N.compare_refl. apply IH.
  - apply N.compare_eq in Hxy. subst. by rewrite Hyz.
  - apply N.compare_eq in Hyz. subst. by rewrite Hxy.
  - apply N.compare_lt_iff in Hxy. apply N.compare_lt_iff in Hyz.
    pose proof (N.lt_trans x y z Hxy Hyz) as Hxz.
    apply N.compare_lt_iff in Hxz. by rewrite Hxz.
Qed.

Lemma str_leb_trans (a b c : pystr) :
  Mongo.str_leb a b = true -> Mongo.str_leb b c = true ->
  Mongo.str_leb a c = true.
Proof.
  unfold Mongo.str_leb.
  destruct (Mongo.str_compare a b) eqn:Hab; [|  |done].
  - apply str_compare_Eq in Hab as ->. done.
  - destruct (Mongo.str_compare b c) eqn:Hbc; [| |done].
    + apply str_compare_Eq in Hbc as <-. by rewrite Hab.
    + by rewrite (str_compare_Lt_trans a b c Hab Hbc).
Qed.

Section SortFacts.
Context {D : Type} (key : D -> pystr).

Lemma insert_asc_perm (x : D) (l : list D) :
  Mongo.insert_asc key x l ≡ₚ x :: l.
Proof.
  induction l as [|y l IH]; simpl; [reflexivity|].
  destruct (Mongo.str_leb (key x) (key y)); [reflexivity|].
  rewrite IH. apply Permutation_swap.
Qed.

Lemma sort_asc_perm (l : list D) : Mongo.sort_asc key l ≡ₚ l.
Proof.
  induction l as [|x l IH]; simpl; [reflexivity|].
  rewrite insert_asc_perm. by rewrite IH.
Qed.






End SortFacts.

Lemma map_strongly_sorted {A B : Type} (f : A -> B)
    (R : A -> A -> Prop) (R' : B -> B -> Prop) (l : list A) :
  (forall x y, R x y -> R' (f x) (f y)) ->
  StronglySorted R l -> StronglySorted R' (map f l).
Proof.
  intros HR. induction 1 as [|x l Hl IH Hx]; simpl; constructor; [exact IH|].
  apply List.Forall_forall. intros y Hy.
  apply in_map_iff in Hy as (z & <- & Hz).
  apply HR. rewrite List.Forall_forall in Hx. by apply Hx.
Qed.

(** The documents of a listing satisfy its filter and come from the
    store. *)
Lemma today_docs_sound (db : DB) (today : pystr) (vip : bool) (b : Bet) :
  b ∈ today_docs db today vip ->
  b ∈ bets db /\ today_filter today vip b = true.
Proof.
  unfold today_docs, Mongo.to_list, Mongo.find. intros Hin.
  apply subseteq_take in Hin. rewrite sort_asc_perm in Hin.
  apply list_elem_of_In, filter_In in Hin as [Hin Hq].
  split; [by apply list_elem_of_In | exact Hq].
Qed.


Lemma today_filter_true (today : pystr) (vip : bool) (b : Bet) :
  today_filter today vip b = true <->
  b_date b = today /\ b_is_vip b = vip /\ b_status b = u "pending".
Proof.
  unfold today_filter. rewrite !andb_true_iff, !pystr_eqb_eq.
  rewrite Bool.eqb_true_iff. tauto.
Qed.




(* ===================================================================== *)
(** ** Importing the channel twice *)
(* ===================================================================== *)

Lemma telegram_id_is_true (mid : Z) (b : Bet) :
  telegram_id_is mid b = true <-> b_telegram_message_id b = Some mid.
Proof. apply bool_decide_eq_true. Qed.


Section ImportFacts.
Context `{Collaborators}.
Variable uuid4 : nat -> pystr.
Variable clock : nat -> datetime.









End ImportFacts.






(* ===================================================================== *)
(** ** What every parsed pick satisfies *)
(* ===================================================================== *)

Lemma digits_value_nonneg (ds : pystr) : 0 <= digits_value ds.
Proof.
  unfold digits_value.
  assert (Hgen : forall acc, 0 <= acc ->
            0 <= fold_left
                   (fun acc c =>
                      10 * acc + Z.of_N (default 0%N (digit_value c)))
                   ds acc).
  { induction ds as [|c ds IH]; intros acc Hacc; simpl; [exact Hacc|].
    apply IH. lia. }
  apply Hgen. lia.
Qed.

Lemma py_int_nonneg (ds : pystr) (n : Z) : py_int ds = Some n -> 0 <= n.
Proof.
  unfold py_int. destruct (_ <? _)%nat; [discriminate|].
  intros [= <-]. apply digits_value_nonneg.
Qed.

Lemma bet_type_of_known (line t : pystr) :
  bet_type_of line = Some t -> t ∈ bet_types.
Proof.
  unfold bet_type_of, bet_types.
  repeat (match goal with
          | |- context [if ?b then _ else _] => destruct b
          end);
    intros [= <-]; set_solver.
Qed.

Lemma parse_init_wf : pick_wf parse_init.
Proof.
  unfold pick_wf, parse_init. simpl.
  split; [lia|]. split; [by left|]. by repeat split.
Qed.

Lemma set_teams_wf (st : ParsedPick) (teams : list pystr) :
  pick_wf st -> pick_wf (set_teams st teams).
Proof.
  intros Hwf. unfold set_teams.
  destruct teams as [|h [|a [|x teams]]]; exact Hwf.
Qed.

Lemma step_teams_wf (line : pystr) (st : ParsedPick) :
  pick_wf st -> pick_wf (step_teams line st).
Proof.
  intros Hwf. unfold step_teams.
  repeat (match goal with
          | |- context [if ?b then _ else _] => destruct b
          end); try exact Hwf; by apply set_teams_wf.
Qed.

Lemma step_bet_type_wf (line : pystr) (st : ParsedPick) :
  pick_wf st -> pick_wf (step_bet_type line st).
Proof.
  intros Hwf. pose proof Hwf as (Hstake & Hbt & Hsc). unfold step_bet_type.
  destruct (_ || _); [|exact Hwf].
  split; [exact Hstake|]. split; [|exact Hsc]. simpl.
  destruct (bet_type_of line) as [t|] eqn:Ht; simpl; [|exact Hbt].
  right. by eapply bet_type_of_known.
Qed.

Lemma step_stake_wf (line : pystr) (st st' : ParsedPick) :
  pick_wf st -> step_stake line st = Some st' -> pick_wf st'.
Proof.
  intros Hwf. pose proof Hwf as (Hstake & Hbt & Hsc). unfold step_stake.
  destruct (_ || _); [|by intros [= <-]].
  destruct (re_search_int line) as [g|]; [|by intros [= <-]].
  destruct (py_int g) as [n|] eqn:Hn; [|discriminate].
  intros [= <-]. split; [|by split]. simpl.
  apply py_int_nonneg in Hn. destruct (10 <? n) eqn:Hlt; [lia|].
  apply Z.ltb_ge in Hlt. lia.
Qed.

Lemma step_odds_wf (line : pystr) (st : ParsedPick) :
  pick_wf st -> pick_wf (step_odds line st).
Proof.
  intros Hwf. unfold step_odds.
  destruct (_ || _); [|exact Hwf].
  destruct (re_search_decimal line); exact Hwf.
Qed.

Lemma step_result_wf (line : pystr) (st : ParsedPick) :
  pick_wf st -> pick_wf (step_result line st).
Proof.
  intros Hwf. unfold step_result.
  repeat (match goal with
          | |- context [if ?b then _ else _] => destruct b
          end); exact Hwf.
Qed.

Lemma step_score_wf (line : pystr) (st st' : ParsedPick) :
  pick_wf st -> step_score line st = Some st' -> pick_wf st'.
Proof.
  intros Hwf. pose proof Hwf as (Hstake & Hbt & Hsc). unfold step_score.
  destruct (re_search_score line) as [[g1 g2]|]; [|by intros [= <-]].
  destruct (_ || _); [|by intros [= <-]].
  destruct (py_int g1) as [h|] eqn:Hh; [|discriminate].
  destruct (py_int g2) as [a|] eqn:Ha; [|discriminate].
  intros [= <-]. split; [exact Hstake|]. split; [exact Hbt|]. simpl.
  apply py_int_nonneg in Hh, Ha.
  split; [split; discriminate|]. split; intros x [= <-]; assumption.
Qed.

Lemma parse_line_wf (raw : pystr) (st st' : ParsedPick) :
  pick_wf st -> parse_line raw st = Some st' -> pick_wf st'.
Proof.
  intros Hwf. unfold parse_line.
  destruct (step_stake _ _) as [st1|] eqn:Hst1; [|discriminate].
  intros Hscore. eapply step_score_wf; [|exact Hscore].
  apply step_result_wf, step_odds_wf.
  eapply step_stake_wf; [|exact Hst1].
  by apply step_bet_type_wf, step_teams_wf.
Qed.

Lemma parse_lines_wf (lines : list pystr) (st st' : ParsedPick) :
  pick_wf st -> parse_lines lines st = Some st' -> pick_wf st'.
Proof.
  revert st. induction lines as [|l lines IH]; intros st Hwf; simpl.
  - by intros [= <-].
  - destruct (parse_line l st) as [st1|] eqn:Hl; [|discriminate].
    apply IH. by eapply parse_line_wf.
Qed.

(** What [parse_telegram_message] returns went through the loop from the
    initial variables and has the three required fields. *)
Lemma parse_telegram_message_Some (txt : pystr) (p : ParsedPick) :
  parse_telegram_message txt = Some p ->
  pick_wf p /\ pp_home_team p <> [] /\ pp_away_team p <> []
  /\ pp_bet_type p <> [].
Proof.
  unfold parse_telegram_message.
  destruct (parse_lines _ _) as [st|] eqn:Hlines; [|discriminate].
  destruct (truthy (pp_home_team st)) eqn:Hh; [|discriminate].
  destruct (truthy (pp_away_team st)) eqn:Ha; [|discriminate].
  destruct (truthy (pp_bet_type st)) eqn:Hb; [|discriminate].
  simpl. intros [= <-].
  split; [by eapply parse_lines_wf; [apply parse_init_wf|]|].
  repeat split; intros Hnil;
    [rewrite Hnil in Hh | rewrite Hnil in Ha | rewrite Hnil in Hb];
    discriminate.
Qed.

(** X1. Whatever the message, the stake of a parsed pick lies between 0
    and 10: the default is 5 and a stake read from the message is cut at
    10. *)
Theorem parsed_stake_bounds (txt : pystr) (p : ParsedPick) :
  parse_telegram_message txt = Some p -> 0 <= pp_stake p <= 10.
Proof.
  intros Hp. by apply parse_telegram_message_Some in Hp as [(Hs & _) _].
Qed.

Lemma parsed_stake_bounds_witness :
  exists p,
    parse_telegram_message
      (u "Lyon v Nice" ++ [LF] ++ u "⚽ BTTS ✅" ++ [LF]
         ++ u "📈 Points - 25") = Some p /\
    pp_stake p = 10 /\ 0 <= pp_stake p <= 10.
Proof.
  eexists. split; [vm_compute; reflexivity|]. split; [reflexivity|].
  eapply (parsed_stake_bounds
            (u "Lyon v Nice" ++ [LF] ++ u "⚽ BTTS ✅" ++ [LF]
               ++ u "📈 Points - 25")).
  vm_compute. reflexivity.
Defined.

(** X2. A parsed pick has a home team, an away team, and a bet type that
    is one of the seven markets the parser knows. *)
Theorem parsed_pick_complete (txt : pystr) (p : ParsedPick) :
  parse_telegram_message txt = Some p ->
  pp_home_team p <> [] /\ pp_away_team p <> [] /\
  pp_bet_type p ∈ bet_types.
Proof.
  intros Hp.
  apply parse_telegram_message_Some in Hp
    as ((_ & [Hnil | Hbt] & _) & Hh & Ha & Hb); [done|].
  by repeat split.
Qed.

Lemma parsed_pick_complete_witness :
  exists p,
    parse_telegram_message Sample.marseille = Some p /\
    pp_home_team p <> [] /\ pp_away_team p <> [] /\
    pp_bet_type p ∈ bet_types.
Proof.
  eexists. split; [vm_compute; reflexivity|].
  eapply (parsed_pick_complete Sample.marseille).
  vm_compute. reflexivity.
Defined.

(** X3. A parsed pick has both scores or neither, and a score is never
    negative. *)
Theorem parsed_scores_paired (txt : pystr) (p : ParsedPick) :
  parse_telegram_message txt = Some p ->
  (pp_home_score p = None <-> pp_away_score p = None) /\
  (forall h, pp_home_score p = Some h -> 0 <= h) /\
  (forall a, pp_away_score p = Some a -> 0 <= a).
Proof.
  intros Hp. by apply parse_telegram_message_Some in Hp as [(_ & _ & Hs) _].
Qed.

Lemma parsed_scores_paired_witness :
  exists p,
    parse_telegram_message
      (u "Liverpool vs Man Utd" ++ [LF] ++ u "Under 2.5" ++ [LF]
         ++ u "❌ Result - Lost" ++ [LF] ++ u "FT: 2-1") = Some p /\
    (pp_home_score p = None <-> pp_away_score p = None) /\
    (forall h, pp_home_score p = Some h -> 0 <= h) /\
    (forall a, pp_away_score p = Some a -> 0 <= a).
Proof.
  eexists. split; [vm_compute; reflexivity|].
  eapply (parsed_scores_paired
            (u "Liverpool vs Man Utd" ++ [LF] ++ u "Under 2.5" ++ [LF]
               ++ u "❌ Result - Lost" ++ [LF] ++ u "FT: 2-1")).
  vm_compute. reflexivity.
Defined.

(* ===================================================================== *)
(** ** Who gets through the session and admin checks *)
(* ===================================================================== *)



(** The header checks come first: without a header that starts with
    "Bearer " the token is not even decoded. *)
Lemma get_current_user_no_bearer `{Collaborators} (cfg : Config)
    (db : DB) (h : pystr) (now : datetime) :
  startswith (u "Bearer ") h = false ->
  get_current_user cfg db (Some h) now
    = HTTPException 401 (u "Not authenticated").
Proof.
  intros Hno. unfold get_current_user. rewrite Hno.
  by rewrite orb_true_r.
Qed.


(* ===================================================================== *)
(** ** Registration, login and elevation, one after the other *)
(* ===================================================================== *)

Lemma user_email_is_true (e : pystr) (x : User) :
  user_email_is e x = true <-> u_email x = e.
Proof. apply pystr_eqb_eq. Qed.

(** No stored user has an email that [find_one] does not find. *)
Lemma find_one_email_None (e : pystr) (us : list User) :
  Mongo.find_one (user_email_is e) us = None -> e ∉ map u_email us.
Proof.
  intros Hnone Hin. apply find_one_None in Hnone.
  apply list_elem_of_In, in_map_iff in Hin as (x & Hx & Hin).
  rewrite List.Forall_forall in Hnone. specialize (Hnone x Hin).
  apply pystr_eqb_neq in Hnone. by apply Hnone.
Qed.

(** What a successful registration leaves in the store. *)
Lemma register_new_email `{Collaborators} (cfg : Config) (db : DB)
    (email password name uuid salt : pystr) (now : datetime) :
  Mongo.find_one (user_email_is email) (users db) = None ->
  register cfg db email password name uuid salt now
    = (Ok {| tr_token := create_token cfg uuid now;
             tr_user :=
               {| ur_id := uuid; ur_email := email; ur_name := name;
                  ur_is_vip := false; ur_is_admin := false;
                  ur_subscription_status := None;
                  ur_created_at := isoformat now |} |},
       with_users db
         (users db ++
            [{| u_id := uuid; u_email := email; u_name := name;
                u_password_hash := bcrypt_hashpw password salt;
                u_is_vip := false; u_is_admin := false;
                u_subscription_status := None; u_subscription_id := None;
                u_created_at := isoformat now |}])).
Proof. intros Hnew. unfold register. by rewrite Hnew. Qed.

(** X6. After a registration with a new email, [login] with the same
    email and password succeeds, provided bcrypt verifies the password
    against the hash it made of it; the user it answers is the one
    [register] answered. *)
Theorem register_then_login `{Collaborators} (cfg : Config) (db : DB)
    (email password name uuid salt : pystr) (now later : datetime) :
  Mongo.find_one (user_email_is email) (users db) = None ->
  bcrypt_checkpw password (bcrypt_hashpw password salt) = true ->
  exists registered db',
    register cfg db email password name uuid salt now
      = (Ok registered, db') /\
    login cfg db' email password later
      = Ok {| tr_token := create_token cfg uuid later;
              tr_user := tr_user registered |}.
Proof.
  intros Hnew Hcheck. eexists _, _.
  split; [by apply register_new_email|].
  unfold login. cbn [users with_users].
  rewrite find_one_app, Hnew. cbn [Mongo.find_one].
  unfold user_email_is at 1. cbn [u_email]. rewrite pystr_eqb_refl.
  unfold verify_password. cbn [u_password_hash]. by rewrite Hcheck.
Qed.

Lemma register_then_login_witness :
  exists registered db',
    register (H := Sample.libs) Sample.cfg Sample.two_users
             (u "carol@example.com") (u "hunter2") (u "Carol")
             (u "carol-id") (u "s3") Sample.noon = (Ok registered, db') /\
    login (H := Sample.libs) Sample.cfg db' (u "carol@example.com")
          (u "hunter2") Sample.noon
      = Ok {| tr_token := u "carol-id"; tr_user := tr_user registered |}.
Proof.
  exact (register_then_login (H := Sample.libs) Sample.cfg Sample.two_users
           (u "carol@example.com") (u "hunter2") (u "Carol")
           (u "carol-id") (u "s3") Sample.noon Sample.noon
           eq_refl eq_refl).
Defined.

(** X7. [register] keeps the emails of the stored users pairwise
    distinct. *)
Theorem register_keeps_emails_unique `{Collaborators} (cfg : Config)
    (db : DB) (email password name uuid salt : pystr) (now : datetime) :
  NoDup (map u_email (users db)) ->
  NoDup (map u_email
           (users (register cfg db email password name uuid salt now).2)).
Proof.
  intros Hnodup. unfold register.
  destruct (Mongo.find_one _ _) as [existing|] eqn:Hfind; [exact Hnodup|].
  cbn [snd users with_users]. unfold Mongo.insert_one.
  rewrite map_app. cbn [map u_email].
  apply NoDup_app. split; [exact Hnodup|]. split.
  - intros e He Hin. apply list_elem_of_singleton in Hin as ->.
    by apply find_one_email_None in Hfind.
  - apply NoDup_singleton.
Qed.

Lemma register_keeps_emails_unique_witness :
  NoDup (map u_email
           (users (register (H := Sample.libs) Sample.cfg Sample.two_users
                     (u "carol@example.com") (u "hunter2") (u "Carol")
                     (u "carol-id") (u "s3") Sample.noon).2)).
Proof.
  apply (register_keeps_emails_unique (H := Sample.libs)).
  apply (bool_decide_unpack _). by vm_compute.
Defined.

(** After a registration with an unused id, the session of the new user
    resolves to the new document. *)
Lemma register_then_current_user `{Collaborators} (cfg : Config) (db : DB)
    (email password name uuid salt token : pystr) (now later : datetime) :
  Mongo.find_one (user_email_is email) (users db) = None ->
  Mongo.find_one (user_id_is uuid) (users db) = None ->
  32%N ∉ token ->
  jwt_decode token (JWT_SECRET cfg) later = JwtPayload (Some uuid) ->
  get_current_user cfg
    (register cfg db email password name uuid salt now).2
    (Some (u "Bearer " ++ token)) later
  = Ok {| u_id := uuid; u_email := email; u_name := name;
          u_password_hash := bcrypt_hashpw password salt;
          u_is_vip := false; u_is_admin := false;
          u_subscription_status := None; u_subscription_id := None;
          u_created_at := isoformat now |}.
Proof.
  intros Hnew Hid Hno Hdec.
  rewrite register_new_email by exact Hnew. cbn [snd].
  rewrite (get_current_user_bearer cfg _ token uuid later Hno Hdec).
  cbn [users with_users]. rewrite find_one_app, Hid. cbn [Mongo.find_one].
  unfold user_id_is at 1. cbn [u_id]. by rewrite pystr_eqb_refl.
Qed.

(** X8. A user who has just registered (new email, unused id) and
    presents a token that decodes to the new id is refused by the admin
    check and by both VIP listings, each time with status 403. *)
Theorem fresh_user_is_forbidden `{Collaborators} (cfg : Config) (db : DB)
    (email password name uuid salt token : pystr) (now later : datetime) :
  Mongo.find_one (user_email_is email) (users db) = None ->
  Mongo.find_one (user_id_is uuid) (users db) = None ->
  32%N ∉ token ->
  jwt_decode token (JWT_SECRET cfg) later = JwtPayload (Some uuid) ->
  let db' := (register cfg db email password name uuid salt now).2 in
  get_admin_user cfg db' (Some (u "Bearer " ++ token)) later
    = HTTPException 403 (u "Admin access required") /\
  exists user,
    get_current_user cfg db' (Some (u "Bearer " ++ token)) later = Ok user /\
    get_vip_today_bets db' user later
      = HTTPException 403 (u "VIP subscription required") /\
    get_vip_results db' user
      = HTTPException 403 (u "VIP subscription required").
Proof.
  intros Hnew Hid Hno Hdec db'.
  pose proof (register_then_current_user cfg db email password name uuid
                salt token now later Hnew Hid Hno Hdec) as Hcur.
  fold db' in Hcur. split.
  - unfold get_admin_user. by rewrite Hcur.
  - eexists. split; [exact Hcur|]. split; reflexivity.
Qed.

Lemma fresh_user_is_forbidden_witness :
  get_admin_user (H := Sample.libs) Sample.cfg
    (register (H := Sample.libs) Sample.cfg Sample.two_users
       (u "carol@example.com") (u "hunter2") (u "Carol")
       (u "carol-id") (u "s3") Sample.noon).2
    (Some (u "Bearer " ++ u "carol-id")) Sample.noon
  = HTTPException 403 (u "Admin access required").
Proof.
  assert (Hno : 32%N ∉ u "carol-id").
  { vm_compute. intros Hin.
    repeat (apply elem_of_cons in Hin as [Hin|Hin]; [discriminate|]).
    by apply elem_of_nil in Hin. }
  exact (proj1 (fresh_user_is_forbidden (H := Sample.libs) Sample.cfg
                  Sample.two_users (u "carol@example.com") (u "hunter2")
                  (u "Carol") (u "carol-id") (u "s3") (u "carol-id")
                  Sample.noon Sample.noon eq_refl eq_refl Hno eq_refl)).
Defined.

(** X9. Elevation lasts: once [verify_admin] has accepted the code, the
    admin check lets every later session of that user through, with no
    code asked again; until then it answers 403. *)
Theorem elevation_is_sticky `{Collaborators} (cfg : Config) (db : DB)
    (user : User) (token : pystr) (later : datetime) :
  Mongo.find_one (user_id_is (u_id user)) (users db) = Some user ->
  u_is_admin user = false ->
  32%N ∉ token ->
  jwt_decode token (JWT_SECRET cfg) later = JwtPayload (Some (u_id user)) ->
  get_admin_user cfg db (Some (u "Bearer " ++ token)) later
    = HTTPException 403 (u "Admin access required") /\
  get_admin_user cfg (verify_admin cfg db (ADMIN_CODE cfg) user).2
    (Some (u "Bearer " ++ token)) later
    = Ok (set_is_admin user).
Proof.
  intros Hfound Hnot Hno Hdec. unfold get_admin_user.
  rewrite !(get_current_user_bearer cfg _ token (u_id user) later Hno Hdec).
  rewrite Hfound, Hnot. split; [reflexivity|].
  unfold verify_admin. rewrite pystr_eqb_refl. cbn [negb snd users with_users].
  rewrite find_one_update_one by apply user_id_is_set_is_admin.
  by rewrite Hfound.
Qed.

Lemma elevation_is_sticky_witness :
  get_admin_user (H := Sample.libs) Sample.cfg
    (verify_admin Sample.cfg Sample.two_users (u "syndicate2024")
       Sample.bob).2
    (Some (u "Bearer " ++ u "bob-id")) Sample.noon
  = Ok (set_is_admin Sample.bob).
Proof.
  exact (proj2 (elevation_is_sticky (H := Sample.libs) Sample.cfg
                  Sample.two_users Sample.bob (u "bob-id") Sample.noon
                  eq_refl eq_refl no_blank_in_bob_id eq_refl)).
Defined.

(* ===================================================================== *)
(** ** Descending sorts and the listings built on them *)
(* ===================================================================== *)

Section SortDescFacts.
Context {D : Type} (key : D -> pystr).

Lemma insert_desc_perm (x : D) (l : list D) :
  MongoExt.insert_desc key x l ≡ₚ x :: l.
Proof.
  induction l as [|y l IH]; simpl; [reflexivity|].
  destruct (Mongo.str_leb (key y) (key x)); [reflexivity|].
  rewrite IH. apply Permutation_swap.
Qed.

Lemma sort_desc_perm (l : list D) : MongoExt.sort_desc key l ≡ₚ l.
Proof.
  induction l as [|x l IH]; simpl; [reflexivity|].
  rewrite insert_desc_perm. by rewrite IH.
Qed.

Lemma insert_desc_hd (a x : D) (l : list D) :
  MongoExt.key_ge key a x -> HdRel (MongoExt.key_ge key) a l ->
  HdRel (MongoExt.key_ge key) a (MongoExt.insert_desc key x l).
Proof.
  intros Hax Hal. destruct l as [|y l]; simpl; [by constructor|].
  destruct (Mongo.str_leb (key y) (key x)); constructor; [done|].
  by inversion Hal.
Qed.

Lemma insert_desc_sorted (x : D) (l : list D) :
  Sorted (MongoExt.key_ge key) l ->
  Sorted (MongoExt.key_ge key) (MongoExt.insert_desc key x l).
Proof.
  induction 1 as [|y l Hl IH Hhd]; simpl; [by repeat constructor|].
  destruct (Mongo.str_leb (key y) (key x)) eqn:Hyx.
  - constructor; [by constructor | by constructor].
  - constructor; [exact IH|].
    apply insert_desc_hd; [|exact Hhd]. by apply str_leb_total.
Qed.

Lemma sort_desc_strongly_sorted (l : list D) :
  StronglySorted (MongoExt.key_ge key) (MongoExt.sort_desc key l).
Proof.
  apply Sorted_StronglySorted.
  - intros x y z Hxy Hyz. unfold MongoExt.key_ge in *.
    by eapply str_leb_trans.
  - induction l as [|x l IH]; simpl; [constructor|].
    by apply insert_desc_sorted.
Qed.
End SortDescFacts.

Lemma take_StronglySorted {A : Type} (R : A -> A -> Prop) (n : nat)
    (l : list A) :
  StronglySorted R l -> StronglySorted R (take n l).
Proof.
  intros Hl. revert n. induction Hl as [|x l Hl IH Hx]; intros [|n]; simpl;
    try constructor; [apply IH|].
  apply Forall_forall. intros y Hy. rewrite Forall_forall in Hx.
  apply Hx. exact (subseteq_take n l y Hy).
Qed.

Lemma find_all {D : Type} (c : list D) : Mongo.find (fun _ => true) c = c.
Proof.
  unfold Mongo.find. induction c as [|d c IH]; simpl; [done|]. by rewrite IH.
Qed.

(** The documents of a result listing satisfy its filter and come from
    the store. *)
Lemma results_docs_sound (db : DB) (vip : bool) (b : Bet) :
  b ∈ results_docs db vip ->
  b ∈ bets db /\ results_filter vip b = true.
Proof.
  unfold results_docs, Mongo.to_list, Mongo.find. intros Hin.
  apply subseteq_take in Hin. rewrite sort_desc_perm in Hin.
  apply list_elem_of_In, filter_In in Hin as [Hin Hq].
  split; [by apply list_elem_of_In | exact Hq].
Qed.

Lemma results_filter_true (vip : bool) (b : Bet) :
  results_filter vip b = true <->
  (b_status b = u "won" \/ b_status b = u "lost") /\ b_is_vip b = vip.
Proof.
  unfold results_filter, status_settled.
  rewrite andb_true_iff, orb_true_iff, !pystr_eqb_eq, Bool.eqb_true_iff.
  tauto.
Qed.

(** X10. [GET /admin/bets] answers the bets in descending order of
    [kick_off], at most 1000 of them, each one a stored bet; all the
    bets, when the store has at most 1000. *)
Theorem get_all_bets_listing (db : DB) :
  StronglySorted
    (fun x y => Mongo.str_leb (br_kick_off y) (br_kick_off x) = true)
    (get_all_bets db) /\
  (length (get_all_bets db) <= 1000)%nat /\
  (forall r, r ∈ get_all_bets db ->
     exists b, b ∈ bets db /\ r = bet_response b) /\
  ((length (bets db) <= 1000)%nat ->
   get_all_bets db ≡ₚ map bet_response (bets db)).
Proof.
  unfold get_all_bets, Mongo.to_list. rewrite find_all.
  split; [|split; [|split]].
  - apply (map_strongly_sorted bet_response (MongoExt.key_ge b_kick_off));
      [intros x y Hxy; exact Hxy|].
    apply take_StronglySorted, sort_desc_strongly_sorted.
  - rewrite length_map, length_take. lia.
  - intros r Hr. apply list_elem_of_In, in_map_iff in Hr as (b & <- & Hb).
    exists b. split; [|reflexivity].
    apply list_elem_of_In in Hb. apply subseteq_take in Hb.
    by rewrite sort_desc_perm in Hb.
  - intros Hlen. rewrite take_ge.
    + apply Permutation_map, sort_desc_perm.
    + by rewrite (Permutation_length (sort_desc_perm b_kick_off _)).
Qed.

Lemma get_all_bets_listing_witness :
  get_all_bets Sample.three_won_one_lost
    ≡ₚ map bet_response (bets Sample.three_won_one_lost).
Proof.
  destruct (get_all_bets_listing Sample.three_won_one_lost)
    as (_ & _ & _ & Hall).
  apply Hall. vm_compute. lia.
Defined.

(** X11. The public listings never show a VIP pick: every entry of
    [GET /bets/today] and of [GET /bets/results] has [is_vip] false.
    The VIP listings show VIP picks only, and only to a VIP user: any
    other caller gets 403. *)
Theorem listings_respect_tiers (db : DB) (user : User) (now : datetime) :
  (forall r, r ∈ get_today_bets db now ++ get_results db ->
     br_is_vip r = false) /\
  (forall listing,
     get_vip_today_bets db user now = Ok listing \/
     get_vip_results db user = Ok listing ->
     u_is_vip user = true /\ forall r, r ∈ listing -> br_is_vip r = true) /\
  (u_is_vip user = false ->
     get_vip_today_bets db user now
       = HTTPException 403 (u "VIP subscription required") /\
     get_vip_results db user
       = HTTPException 403 (u "VIP subscription required")).
Proof.
  split; [|split].
  - intros r Hr. apply elem_of_app in Hr as [Hr | Hr];
      apply list_elem_of_In, in_map_iff in Hr as (b & <- & Hb);
      apply list_elem_of_In in Hb.
    + apply today_docs_sound in Hb as [_ Hq].
      by apply today_filter_true in Hq as (_ & Hvip & _).
    + apply results_docs_sound in Hb as [_ Hq].
      by apply results_filter_true in Hq as [_ Hvip].
  - unfold get_vip_today_bets, get_vip_results.
    destruct (u_is_vip user); cbn [negb]; [|by intros listing [? | ?]].
    intros listing Hl. split; [reflexivity|]. intros r Hr.
    destruct Hl as [[= <-] | [= <-]];
      apply list_elem_of_In, in_map_iff in Hr as (b & <- & Hb);
      apply list_elem_of_In in Hb.
    + apply today_docs_sound in Hb as [_ Hq].
      by apply today_filter_true in Hq as (_ & Hvip & _).
    + apply results_docs_sound in Hb as [_ Hq].
      by apply results_filter_true in Hq as [_ Hvip].
  - intros Hno. unfold get_vip_today_bets, get_vip_results.
    by rewrite Hno.
Qed.

Lemma listings_respect_tiers_witness :
  get_vip_results Sample.three_won_one_lost Sample.alice
    = HTTPException 403 (u "VIP subscription required")
  /\ forall r, r ∈ get_results Sample.three_won_one_lost ->
       br_is_vip r = false.
Proof.
  destruct (listings_respect_tiers Sample.three_won_one_lost Sample.alice
              Sample.noon) as (Hpub & _ & Hno).
  split.
  - by apply Hno.
  - intros r Hr. apply Hpub. apply elem_of_app. by right.
Defined.

(** X12. [GET /bets/results] answers settled picks only (status "won"
    or "lost"), in descending order of [kick_off], at most 100 of them;
    so no pick is at once in the results and in the listing of the day,
    which holds pending picks only. *)
Theorem results_are_settled (db : DB) (now : datetime) :
  (forall r, r ∈ get_results db ->
     br_status r = u "won" \/ br_status r = u "lost") /\
  StronglySorted
    (fun x y => Mongo.str_leb (br_kick_off y) (br_kick_off x) = true)
    (get_results db) /\
  (length (get_results db) <= 100)%nat /\
  (forall r, r ∈ get_results db -> r ∉ get_today_bets db now).
Proof.
  assert (Hsettled : forall r, r ∈ get_results db ->
            br_status r = u "won" \/ br_status r = u "lost").
  { intros r Hr. apply list_elem_of_In, in_map_iff in Hr as (b & <- & Hb).
    apply list_elem_of_In, results_docs_sound in Hb as [_ Hq].
    by apply results_filter_true in Hq as [Hst _]. }
  split; [exact Hsettled|]. split; [|split].
  - unfold get_results, results_docs, Mongo.to_list.
    apply (map_strongly_sorted bet_response (MongoExt.key_ge b_kick_off));
      [intros x y Hxy; exact Hxy|].
    apply take_StronglySorted, sort_desc_strongly_sorted.
  - unfold get_results, results_docs, Mongo.to_list.
    rewrite length_map, length_take. lia.
  - intros r Hr Htoday. apply Hsettled in Hr.
    apply list_elem_of_In, in_map_iff in Htoday as (b & <- & Hb).
    apply list_elem_of_In, today_docs_sound in Hb as [_ Hq].
    apply today_filter_true in Hq as (_ & _ & Hpending).
    cbn [bet_response br_status] in Hr. rewrite Hpending in Hr.
    by destruct Hr as [Hr | Hr]; vm_compute in Hr.
Qed.

(* ===================================================================== *)
(** ** Creating, settling and deleting bets *)
(* ===================================================================== *)

Section DeleteFacts.
Context {D : Type}.
Implicit Types (q : D -> bool) (c : list D).

Lemma delete_one_no_match q c :
  Mongo.find_one q c = None -> MongoExt.delete_one q c = c.
Proof.
  induction c as [|x c IH]; simpl; [reflexivity|].
  destruct (q x); [discriminate|]. intros Hf. by rewrite IH.
Qed.

Lemma delete_one_inserted q c (d : D) :
  Mongo.find_one q c = None -> q d = true ->
  MongoExt.delete_one q (Mongo.insert_one d c) = c.
Proof.
  unfold Mongo.insert_one.
  induction c as [|x c IH]; simpl; intros Hf Hd.
  - by rewrite Hd.
  - destruct (q x); [discriminate|]. by rewrite IH.
Qed.

Lemma delete_one_perm q c (d : D) :
  Mongo.find_one q c = Some d -> c ≡ₚ d :: MongoExt.delete_one q c.
Proof.
  induction c as [|x c IH]; simpl; [discriminate|].
  destruct (q x).
  - by intros [= ->].
  - intros Hf. rewrite (IH Hf) at 1. apply Permutation_swap.
Qed.

Lemma find_one_inserted q c (d : D) :
  Mongo.find_one q c = None -> q d = true ->
  Mongo.find_one q (Mongo.insert_one d c) = Some d.
Proof.
  intros Hf Hd. unfold Mongo.insert_one.
  rewrite find_one_app, Hf. simpl. by rewrite Hd.
Qed.
End DeleteFacts.

Lemma bet_id_is_true (i : pystr) (b : Bet) :
  bet_id_is i b = true <-> b_id b = i.
Proof. apply pystr_eqb_eq. Qed.

(** With pairwise distinct ids, the id of the deleted bet is gone. *)
Lemma delete_one_unique_id (i : pystr) (bs : list Bet) :
  NoDup (map b_id bs) ->
  Mongo.find_one (bet_id_is i) (MongoExt.delete_one (bet_id_is i) bs) = None.
Proof.
  induction bs as [|b bs IH]; simpl; [reflexivity|].
  intros Hnodup. apply NoDup_cons in Hnodup as [Hb Hnodup].
  destruct (bet_id_is i b) eqn:Hq.
  - apply bet_id_is_true in Hq. apply find_one_None, List.Forall_forall.
    intros b' Hb'. apply pystr_eqb_neq. intros Heq. apply Hb.
    rewrite Hq, <- Heq. apply list_elem_of_In, in_map, Hb'.
  - simpl. rewrite Hq. by apply IH.
Qed.

Lemma with_bets_same (db : DB) : with_bets db (bets db) = db.
Proof. by destruct db. Qed.

(** X13. [create_bet] raises, and stores nothing, when the start time
    is no ISO date; otherwise it appends a pending bet without scores
    whose date is the date of the start time.  Deleting the bet by the
    id [create_bet] answered puts the store back as it was, when no
    other bet had that id. *)
Theorem create_bet_then_delete (fromisoformat : pystr -> option datetime)
    (db : DB) (bet_data : BetCreate) (uuid : pystr) (now : datetime) :
  (fromisoformat (replace_Z (bc_kick_off bet_data)) = None ->
   create_bet fromisoformat db bet_data uuid now
     = (Uncaught (u "ValueError"), db)) /\
  (forall kick_off_date,
     fromisoformat (replace_Z (bc_kick_off bet_data)) = Some kick_off_date ->
     Mongo.find_one (bet_id_is uuid) (bets db) = None ->
     exists created db1,
       create_bet fromisoformat db bet_data uuid now = (Ok created, db1) /\
       br_id created = uuid /\
       br_status created = u "pending" /\
       br_home_score created = None /\ br_away_score created = None /\
       br_date created = ymd kick_off_date /\
       bet_response <$> Mongo.find_one (bet_id_is uuid) (bets db1)
         = Some created /\
       delete_bet db1 (br_id created) = (Ok true, db)).
Proof.
  split.
  - intros Hbad. unfold create_bet. by rewrite Hbad.
  - intros kick_off_date Hgood Hfresh. unfold create_bet. rewrite Hgood.
    eexists _, _. split; [reflexivity|].
    cbn [bet_response br_id br_status br_home_score br_away_score br_date].
    repeat (split; [reflexivity|]).
    cbn [bets with_bets]. split.
    + rewrite find_one_inserted; [reflexivity | exact Hfresh |].
      apply pystr_eqb_refl.
    + unfold delete_bet, MongoExt.deleted_count. cbn [bets with_bets].
      rewrite find_one_inserted;
        [| exact Hfresh | apply pystr_eqb_refl].
      cbn [Z.eqb]. rewrite delete_one_inserted;
        [| exact Hfresh | apply pystr_eqb_refl].
      f_equal. by destruct db.
Qed.

Lemma create_bet_then_delete_witness :
  exists created db1,
    create_bet Demo.fromisoformat Sample.three_won_one_lost
               Demo.evening_pick (u "6") Sample.noon = (Ok created, db1) /\
    br_date created = u "2024-05-01" /\
    delete_bet db1 (u "6") = (Ok true, Sample.three_won_one_lost).
Proof.
  destruct (create_bet_then_delete Demo.fromisoformat
              Sample.three_won_one_lost Demo.evening_pick (u "6")
              Sample.noon) as [_ Hgood].
  destruct (Hgood _ eq_refl eq_refl)
    as (created & db1 & Hrun & Hid & _ & _ & _ & Hdate & _ & Hdel).
  exists created, db1. rewrite Hid in Hdel. by repeat split.
Defined.

(** X14. [update_bet_result] raises 404 and changes nothing when no bet
    has the id.  Otherwise it answers the bet after the update: the
    status is the one supplied, whatever it was and whatever it is; a
    score is overwritten only when the request carries it, so a score
    once set is never removed; the other fields, and the other bets, are
    as they were. *)
Theorem update_bet_result_spec (db : DB) (bet_id : pystr) (upd : BetUpdate) :
  (Mongo.find_one (bet_id_is bet_id) (bets db) = None ->
   update_bet_result db bet_id upd
     = (HTTPException 404 (u "Bet not found"), db)) /\
  (forall b,
     Mongo.find_one (bet_id_is bet_id) (bets db) = Some b ->
     exists db',
       update_bet_result db bet_id upd
         = (Ok (bet_response (set_result upd b)), db') /\
       Mongo.find_one (bet_id_is bet_id) (bets db')
         = Some (set_result upd b) /\
       b_status (set_result upd b) = bu_status upd /\
       (bu_home_score upd = None ->
        b_home_score (set_result upd b) = b_home_score b) /\
       (bu_away_score upd = None ->
        b_away_score (set_result upd b) = b_away_score b) /\
       (is_Some (b_home_score b) ->
        is_Some (b_home_score (set_result upd b))) /\
       (is_Some (b_away_score b) ->
        is_Some (b_away_score (set_result upd b))) /\
       Forall2 (fun old new =>
                  new = old \/ (b_id old = bet_id /\ new = set_result upd old))
               (bets db) (bets db') /\
       users db' = users db /\
       payment_transactions db' = payment_transactions db).
Proof.
  split.
  - intros Hnone. unfold update_bet_result. by rewrite Hnone.
  - intros b Hb. unfold update_bet_result. rewrite Hb.
    eexists. split; [reflexivity|]. cbn [bets with_bets].
    split.
    { rewrite find_one_update_one by (intros d; reflexivity).
      by rewrite Hb. }
    split; [reflexivity|].
    split; [by intros Hn; cbn; rewrite Hn|].
    split; [by intros Hn; cbn; rewrite Hn|].
    split; [by intros Hs; cbn; destruct (bu_home_score upd)|].
    split; [by intros Hs; cbn; destruct (bu_away_score upd)|].
    split; [|done].
    eapply Forall2_impl; [apply update_one_pointwise|].
    intros old new [-> | [Hq ->]]; [by left | right].
    split; [by apply bet_id_is_true | reflexivity].
Qed.

Lemma update_bet_result_spec_witness :
  exists db',
    update_bet_result Sample.three_won_one_lost (u "2") Demo.home_score_only
      = (Ok (bet_response
               (set_result Demo.home_score_only
                  (Sample.bet (u "2") (u "b") true (u "lost")))), db') /\
    (b_home_score <$> Mongo.find_one (bet_id_is (u "2")) (bets db'))
      = Some (Some 3) /\
    (b_away_score <$> Mongo.find_one (bet_id_is (u "2")) (bets db'))
      = Some None.
Proof.
  destruct (update_bet_result_spec Sample.three_won_one_lost (u "2")
              Demo.home_score_only) as [_ Hfound].
  destruct (Hfound _ eq_refl) as (db' & Hrun & Hfind & _).
  exists db'. split; [exact Hrun|]. by rewrite Hfind.
Defined.

(** X15. [delete_bet] raises 404 and changes nothing when no bet has the
    id.  Otherwise it removes one bet, the first with that id, and
    nothing else; when the ids of the stored bets are pairwise distinct,
    deleting the same id again raises 404. *)
Theorem delete_bet_spec (db : DB) (bet_id : pystr) :
  (Mongo.find_one (bet_id_is bet_id) (bets db) = None ->
   delete_bet db bet_id = (HTTPException 404 (u "Bet not found"), db)) /\
  (forall b,
     Mongo.find_one (bet_id_is bet_id) (bets db) = Some b ->
     exists db',
       delete_bet db bet_id = (Ok true, db') /\
       bets db ≡ₚ b :: bets db' /\
       users db' = users db /\
       payment_transactions db' = payment_transactions db /\
       (NoDup (map b_id (bets db)) ->
        delete_bet db' bet_id
          = (HTTPException 404 (u "Bet not found"), db'))).
Proof.
  assert (Hmiss : forall db0,
            Mongo.find_one (bet_id_is bet_id) (bets db0) = None ->
            delete_bet db0 bet_id
              = (HTTPException 404 (u "Bet not found"), db0)).
  { intros db0 Hnone. unfold delete_bet, MongoExt.deleted_count.
    rewrite Hnone. cbn [Z.eqb]. rewrite delete_one_no_match by exact Hnone.
    by rewrite with_bets_same. }
  split; [apply Hmiss|].
  intros b Hb. unfold delete_bet at 1, MongoExt.deleted_count.
  rewrite Hb. cbn [Z.eqb]. eexists. split; [reflexivity|].
  cbn [bets with_bets]. split; [by apply delete_one_perm|].
  split; [reflexivity|]. split; [reflexivity|].
  intros Hnodup. apply Hmiss. cbn [bets with_bets].
  by apply delete_one_unique_id.
Qed.

Lemma delete_bet_spec_witness :
  exists db',
    delete_bet Sample.three_won_one_lost (u "3") = (Ok true, db') /\
    length (bets db') = 4%nat /\
    delete_bet db' (u "3") = (HTTPException 404 (u "Bet not found"), db').
Proof.
  destruct (delete_bet_spec Sample.three_won_one_lost (u "3"))
    as [_ Hfound].
  destruct (Hfound _ eq_refl) as (db' & Hrun & Hperm & _ & _ & Hagain).
  exists db'. split; [exact Hrun|]. split.
  - apply Permutation_length in Hperm. simpl in Hperm. lia.
  - apply Hagain. apply (bool_decide_unpack _). by vm_compute.
Defined.

(* ===================================================================== *)
(** ** Payments: what the handlers change and what they leave *)
(* ===================================================================== *)

Lemma Forall2_same {A : Type} (R : A -> A -> Prop) (l : list A) :
  (forall x, R x x) -> Forall2 R l l.
Proof. intros HR. induction l; constructor; auto. Qed.

Lemma vip_granted_only_refl (x : User) : vip_granted_only x x.
Proof. by repeat split. Qed.

Lemma vip_granted_only_grant (s : pystr) (x : User) :
  vip_granted_only x (grant_vip s x).
Proof. by repeat split. Qed.

Lemma grant_access_users (db : DB) (uid s : pystr) :
  Forall2 vip_granted_only (users db) (users (grant_access db uid s)).
Proof.
  cbn [grant_access users with_users].
  eapply Forall2_impl; [apply update_one_pointwise|].
  intros old new [-> | [_ ->]];
    [apply vip_granted_only_refl | apply vip_granted_only_grant].
Qed.

Lemma mark_paid_transactions (db : DB) (s : pystr) :
  Forall2 paid_only (payment_transactions db)
          (payment_transactions (mark_paid db s)).
Proof.
  cbn [mark_paid payment_transactions with_transactions].
  eapply Forall2_impl; [apply update_one_pointwise|].
  intros old new [-> | [_ ->]]; [by left | by right].
Qed.

(** What a store may look like after a payment handler. *)
Lemma after_grant_and_mark (db : DB) (uid s : pystr) :
  Forall2 vip_granted_only (users db)
          (users (grant_access (mark_paid db s) uid s)) /\
  Forall2 paid_only (payment_transactions db)
          (payment_transactions (grant_access (mark_paid db s) uid s)) /\
  bets (grant_access (mark_paid db s) uid s) = bets db.
Proof.
  split; [apply (grant_access_users (mark_paid db s))|].
  split; [apply mark_paid_transactions | reflexivity].
Qed.

Lemma after_nothing (db : DB) :
  Forall2 vip_granted_only (users db) (users db) /\
  Forall2 paid_only (payment_transactions db) (payment_transactions db) /\
  bets db = bets db.
Proof.
  split; [apply Forall2_same, vip_granted_only_refl|].
  split; [apply Forall2_same; by left | reflexivity].
Qed.

(** X16. Whatever they are given, the status poll and the webhook only
    ever grant: position by position, a user document keeps its id,
    email, name, password hash, admin flag and creation time, and a VIP
    user stays VIP; a transaction is left as it was or marked paid; the
    bets are untouched. *)
Theorem payment_handlers_only_grant (cfg : Config) (db : DB) :
  (forall session_id user provider,
     let db' := (get_checkout_status cfg db session_id user provider).1.2 in
     Forall2 vip_granted_only (users db) (users db') /\
     Forall2 paid_only (payment_transactions db) (payment_transactions db') /\
     bets db' = bets db) /\
  (forall provider,
     let db' := (stripe_webhook cfg db provider).1.2 in
     Forall2 vip_granted_only (users db) (users db') /\
     Forall2 paid_only (payment_transactions db) (payment_transactions db') /\
     bets db' = bets db).
Proof.
  split.
  - intros session_id user provider. unfold get_checkout_status.
    destruct (negb _); [apply after_nothing|].
    destruct provider as [e|status]; [apply after_nothing|].
    destruct (pystr_eqb _ _); [|apply after_nothing].
    destruct (Mongo.find_one _ _) as [t|]; [|apply after_nothing].
    destruct (negb _); [apply after_grant_and_mark | apply after_nothing].
  - intros provider. unfold stripe_webhook.
    destruct (negb _); [apply after_nothing|].
    destruct provider as [e|event]; [apply after_nothing|].
    destruct (pystr_eqb _ _); [|apply after_nothing].
    destruct (wr_metadata event) as [metadata|].
    + destruct (metadata !! u "user_id") as [uid|];
        [apply after_grant_and_mark|].
      cbn [fst snd]. split; [apply Forall2_same, vip_granted_only_refl|].
      split; [apply mark_paid_transactions | reflexivity].
    + cbn [fst snd]. split; [apply Forall2_same, vip_granted_only_refl|].
      split; [apply mark_paid_transactions | reflexivity].
Qed.

(** X17. Once Stripe is configured, [stripe_webhook] never raises: an
    exception of the provider's library (a bad signature, say) is
    answered with the error body, and it and every event that is not
    paid leave the store alone.  Without the key the answer is 500. *)
Theorem stripe_webhook_never_raises (cfg : Config) (db : DB)
    (provider : reply WebhookResponse) :
  (configured (STRIPE_API_KEY cfg) = true ->
   exists answer db' ws,
     stripe_webhook cfg db provider = (Ok answer, db', ws) /\
     (forall e, provider = Raised e ->
        answer = HookError e /\ db' = db /\ ws = []) /\
     (forall event, provider = Returned event ->
        answer = HookSuccess /\
        (wr_payment_status event <> u "paid" -> db' = db /\ ws = []))) /\
  (configured (STRIPE_API_KEY cfg) = false ->
   stripe_webhook cfg db provider
     = (HTTPException 500 (u "Stripe not configured"), db, [])).
Proof.
  split; intros Hcfg; unfold stripe_webhook; rewrite Hcfg; cbn [negb];
    [|reflexivity].
  destruct provider as [e|event].
  - eexists _, _, _. split; [reflexivity|]. split.
    + by intros e' [= <-].
    + intros event [=].
  - destruct (pystr_eqb (wr_payment_status event) (u "paid")) eqn:Hpaid.
    + apply pystr_eqb_eq in Hpaid.
      destruct (wr_metadata event) as [metadata|];
        [destruct (metadata !! u "user_id") as [uid|]|];
        (eexists _, _, _; split; [reflexivity|]; split;
         [intros e [=] | intros ev [= <-]; split; [reflexivity | done]]).
    + eexists _, _, _. split; [reflexivity|]. split; [intros e [=]|].
      intros ev [= <-]. by split.
Qed.

Lemma stripe_webhook_never_raises_witness :
  stripe_webhook Sample.cfg Sample.two_checkouts
    (Raised (u "Invalid signature"))
  = (Ok (HookError (u "Invalid signature")), Sample.two_checkouts, []).
Proof.
  destruct (stripe_webhook_never_raises Sample.cfg Sample.two_checkouts
              (Raised (u "Invalid signature"))) as [Hok _].
  destruct (Hok eq_refl) as (answer & db' & ws & Hrun & Hraised & _).
  destruct (Hraised _ eq_refl) as (-> & -> & ->). exact Hrun.
Defined.

(** X18. The status poll is a read unless it sees a payment for the
    first time: when the provider does not report the session paid, when
    no transaction has the session id, and when the stored transaction
    is already paid, it answers the provider's status and writes
    nothing. *)
Theorem poll_reads_unless_newly_paid (cfg : Config) (db : DB)
    (session_id : pystr) (user : User) (status : CheckoutStatus) :
  configured (STRIPE_API_KEY cfg) = true ->
  cs_payment_status status <> u "paid" \/
  Mongo.find_one (session_id_is session_id) (payment_transactions db)
    = None \/
  (exists t,
     Mongo.find_one (session_id_is session_id) (payment_transactions db)
       = Some t /\ t_payment_status t = u "paid") ->
  get_checkout_status cfg db session_id user (Returned status)
    = (Ok status, db, []).
Proof.
  intros Hcfg Hcase. unfold get_checkout_status. rewrite Hcfg. cbn [negb].
  destruct (pystr_eqb (cs_payment_status status) (u "paid")) eqn:Hpaid;
    [|reflexivity].
  apply pystr_eqb_eq in Hpaid.
  destruct Hcase as [Hno | [Hnone | (t & Hsome & Ht)]]; [done| |].
  - by rewrite Hnone.
  - rewrite Hsome, Ht. by rewrite pystr_eqb_refl.
Qed.

Lemma poll_reads_unless_newly_paid_witness :
  get_checkout_status Sample.cfg Sample.two_checkouts (u "cs_unknown")
    Sample.alice (Returned Sample.paid_status)
  = (Ok Sample.paid_status, Sample.two_checkouts, []).
Proof.
  apply (poll_reads_unless_newly_paid Sample.cfg Sample.two_checkouts
           (u "cs_unknown") Sample.alice Sample.paid_status eq_refl).
  right. left. reflexivity.
Defined.

(** X19. The status poll grants to its caller: when the provider reports
    a session paid and the stored transaction is pending, the caller
    becomes VIP whoever the transaction was recorded for, and every
    other user's document, the owner's too, is found as it was. *)
Theorem poll_grants_the_caller (cfg : Config) (db : DB)
    (session_id : pystr) (caller : User) (status : CheckoutStatus)
    (t : Transaction) :
  configured (STRIPE_API_KEY cfg) = true ->
  cs_payment_status status = u "paid" ->
  Mongo.find_one (session_id_is session_id) (payment_transactions db)
    = Some t ->
  t_payment_status t <> u "paid" ->
  Mongo.find_one (user_id_is (u_id caller)) (users db) = Some caller ->
  exists db',
    get_checkout_status cfg db session_id caller (Returned status)
      = (Ok status, db',
         [SetPaid session_id; GrantVip (u_id caller) session_id]) /\
    Mongo.find_one (user_id_is (u_id caller)) (users db')
      = Some (grant_vip session_id caller) /\
    forall other,
      other <> u_id caller ->
      Mongo.find_one (user_id_is other) (users db')
        = Mongo.find_one (user_id_is other) (users db).
Proof.
  intros Hcfg Hpaid Htx Hpending Hcaller.
  rewrite get_checkout_status_paid by assumption. rewrite Htx.
  apply pystr_eqb_neq in Hpending. rewrite Hpending.
  eexists. split; [reflexivity|].
  cbn [grant_access users with_users mark_paid with_transactions].
  split.
  - rewrite find_one_update_one by (intros d; apply user_id_is_grant_vip).
    by rewrite Hcaller.
  - intros other Hother. apply find_one_update_one_other.
    + intros d Hd. apply user_id_is_true in Hd. apply pystr_eqb_neq.
      congruence.
    + intros d. apply user_id_is_grant_vip.
Qed.

Lemma poll_grants_the_caller_witness :
  exists db',
    get_checkout_status Sample.cfg Sample.two_checkouts (u "cs_1")
      Sample.bob (Returned Sample.paid_status)
      = (Ok Sample.paid_status, db',
         [SetPaid (u "cs_1"); GrantVip (u "bob-id") (u "cs_1")]) /\
    t_user_id (Sample.checkout (u "cs_1")) = u "alice-id" /\
    Mongo.find_one (user_id_is (u "bob-id")) (users db')
      = Some (grant_vip (u "cs_1") Sample.bob) /\
    Mongo.find_one (user_id_is (u "alice-id")) (users db')
      = Some Sample.alice.
Proof.
  assert (Hpending : t_payment_status (Sample.checkout (u "cs_1")) <> u "paid")
    by (vm_compute; discriminate).
  destruct (poll_grants_the_caller Sample.cfg Sample.two_checkouts
              (u "cs_1") Sample.bob Sample.paid_status
              (Sample.checkout (u "cs_1")) eq_refl eq_refl eq_refl
              Hpending eq_refl) as (db' & Hrun & Hbob & Hothers).
  exists db'. split; [exact Hrun|]. split; [reflexivity|].
  split; [exact Hbob|].
  rewrite (Hothers (u "alice-id")); [reflexivity|].
  vm_compute. discriminate.
Defined.

(* ===================================================================== *)
(** ** From checkout to access *)
(* ===================================================================== *)

(** [create_checkout] when the provider opens a session. *)
Lemma create_checkout_returned (cfg : Config)
    (create_checkout_session :
       pystr -> CheckoutSessionRequest -> reply CheckoutSession)
    (db : DB) (base_url origin_url : pystr) (user : User) (uuid : pystr)
    (now : datetime) (session : CheckoutSession) :
  configured (STRIPE_API_KEY cfg) = true ->
  create_checkout_session
    (rstrip_slash base_url ++ u "/api/webhook/stripe")
    (checkout_request origin_url user) = Returned session ->
  create_checkout cfg create_checkout_session db base_url origin_url user
                  uuid now
    = (Ok session,
       with_transactions db
         (Mongo.insert_one
            {| t_id := uuid;
               t_session_id := se_session_id session;
               t_user_id := u_id user;
               t_user_email := u_email user;
               t_amount := py_float (u "9.99");
               t_currency := u "gbp";
               t_payment_status := u "pending";
               t_created_at := isoformat now |}
            (payment_transactions db))).
Proof.
  intros Hcfg Hsession. unfold create_checkout.
  rewrite Hcfg. cbn [negb]. by rewrite Hsession.
Qed.

(** The metadata of a checkout request names the caller. *)
Lemma checkout_request_names_caller (origin_url : pystr) (user : User) :
  csr_metadata (checkout_request origin_url user) !! u "user_id"
    = Some (u_id user).
Proof. unfold checkout_request. cbn [csr_metadata]. apply lookup_insert_eq. Qed.

(** X20. From checkout to access: [create_checkout] records a pending
    transaction and grants nothing; when the session it opened is then
    reported paid, by the caller's status poll or by the webhook event
    that carries the metadata of the checkout request, the caller is VIP
    with that session as subscription and the transaction is paid. *)
Theorem checkout_then_paid (cfg : Config)
    (create_checkout_session :
       pystr -> CheckoutSessionRequest -> reply CheckoutSession)
    (db : DB) (base_url origin_url : pystr) (user : User) (uuid : pystr)
    (now : datetime) (session : CheckoutSession) (p : path)
    (status : CheckoutStatus) (event : WebhookResponse) :
  configured (STRIPE_API_KEY cfg) = true ->
  create_checkout_session
    (rstrip_slash base_url ++ u "/api/webhook/stripe")
    (checkout_request origin_url user) = Returned session ->
  Mongo.find_one (session_id_is (se_session_id session))
    (payment_transactions db) = None ->
  Mongo.find_one (user_id_is (u_id user)) (users db) = Some user ->
  cs_payment_status status = u "paid" ->
  wr_payment_status event = u "paid" ->
  wr_session_id event = se_session_id session ->
  wr_metadata event = Some (csr_metadata (checkout_request origin_url user)) ->
  exists db1 db2 ws,
    create_checkout cfg create_checkout_session db base_url origin_url user
                    uuid now = (Ok session, db1) /\
    users db1 = users db /\
    apply_paid cfg p db1 (se_session_id session) user status event
      = (true, db2, ws) /\
    Mongo.find_one (user_id_is (u_id user)) (users db2)
      = Some (grant_vip (se_session_id session) user) /\
    (t_payment_status <$>
       Mongo.find_one (session_id_is (se_session_id session))
         (payment_transactions db2)) = Some (u "paid").
Proof.
  intros Hcfg Hsession Hfresh Huser Hst Hev Hsid Hmeta.
  eexists _, _, _.
  split; [by apply create_checkout_returned|].
  split; [reflexivity|].
  split.
  { eapply (apply_paid_pending cfg p _ (se_session_id session) user status
              event (csr_metadata (checkout_request origin_url user)));
      try assumption.
    - apply checkout_request_names_caller.
    - cbn [payment_transactions with_transactions].
      apply find_one_inserted; [exact Hfresh | apply pystr_eqb_refl].
    - cbn [t_payment_status]. vm_compute. discriminate. }
  cbn [grant_access mark_paid users payment_transactions with_users
       with_transactions].
  split.
  - rewrite find_one_update_one by (intros d; apply user_id_is_grant_vip).
    by rewrite Huser.
  - rewrite find_one_update_one by (intros d; apply session_id_is_set_paid).
    rewrite find_one_inserted; [reflexivity | exact Hfresh |].
    apply pystr_eqb_refl.
Qed.

Lemma checkout_then_paid_witness :
  exists db1 db2 ws,
    create_checkout Sample.cfg Demo.create_checkout_session
      Sample.two_checkouts (u "https://api.example/")
      (u "https://app.example/") Sample.bob (u "tx-7") Sample.noon
      = (Ok {| se_session_id := u "cs_7";
               se_url := u "https://pay.example/cs_7" |}, db1) /\
    apply_paid Sample.cfg ByWebhook db1 (u "cs_7") Sample.bob
      Sample.paid_status
      (Demo.paid_event_of (u "cs_7")
         (checkout_request (u "https://app.example/") Sample.bob))
      = (true, db2, ws) /\
    Mongo.find_one (user_id_is (u "bob-id")) (users db2)
      = Some (grant_vip (u "cs_7") Sample.bob).
Proof.
  destruct (checkout_then_paid Sample.cfg Demo.create_checkout_session
              Sample.two_checkouts (u "https://api.example/")
              (u "https://app.example/") Sample.bob (u "tx-7") Sample.noon
              {| se_session_id := u "cs_7";
                 se_url := u "https://pay.example/cs_7" |}
              ByWebhook Sample.paid_status
              (Demo.paid_event_of (u "cs_7")
                 (checkout_request (u "https://app.example/") Sample.bob))
              eq_refl eq_refl eq_refl eq_refl eq_refl eq_refl eq_refl
              eq_refl)
    as (db1 & db2 & ws & Hrun & _ & Hpaid & Hbob & _).
  exists db1, db2, ws. by repeat split.
Defined.

(** X21. [create_checkout] never grants access: whatever happens, the
    users and the bets are as they were.  When it answers a session it
    has appended one pending transaction for the caller with that
    session id; when Stripe is not configured (500) or the provider
    raises, the transactions are unchanged too. *)
Theorem create_checkout_outcomes (cfg : Config)
    (create_checkout_session :
       pystr -> CheckoutSessionRequest -> reply CheckoutSession)
    (db : DB) (base_url origin_url : pystr) (user : User) (uuid : pystr)
    (now : datetime) :
  let r := (create_checkout cfg create_checkout_session db base_url
              origin_url user uuid now).1 in
  let db' := (create_checkout cfg create_checkout_session db base_url
                origin_url user uuid now).2 in
  users db' = users db /\ bets db' = bets db /\
  match r with
  | Ok session =>
    exists t,
      payment_transactions db' = payment_transactions db ++ [t] /\
      t_session_id t = se_session_id session /\
      t_user_id t = u_id user /\
      t_payment_status t = u "pending"
  | HTTPException status_code _ => status_code = 500 /\ db' = db
  | Uncaught _ => db' = db
  end.
Proof.
  unfold create_checkout. destruct (negb _); [done|].
  destruct (create_checkout_session _ _) as [e|session]; [done|].
  cbn [fst snd]. split; [reflexivity|]. split; [reflexivity|].
  eexists. split; [reflexivity|]. by repeat split.
Qed.

(* ===================================================================== *)
(** ** What an import adds to the store *)
(* ===================================================================== *)











Lemma find_one_telegram_None (mid : Z) (bs : list Bet) :
  Mongo.find_one (telegram_id_is mid) bs = None -> mid ∉ telegram_ids bs.
Proof.
  intros Hnone Hin. apply find_one_None in Hnone.
  unfold telegram_ids in Hin.
  apply list_elem_of_omap in Hin as (b & Hb & Hid).
  rewrite Forall_forall in Hnone. specialize (Hnone b Hb).
  apply bool_decide_eq_false in Hnone. by apply Hnone.
Qed.

Lemma import_step_unique_ids `{Collaborators} (uuid4 : nat -> pystr)
    (clock : nat -> datetime) (st : ImportState) (upd : Update) :
  NoDup (telegram_ids (bets (is_db st))) ->
  NoDup (telegram_ids (bets (is_db (import_step uuid4 clock st upd)))).
Proof.
  intros Hnodup. unfold import_step.
  destruct (importable upd) as [[post parsed]|]; [|exact Hnodup].
  destruct (Mongo.find_one _ _) eqn:Hfind; [exact Hnodup|].
  cbn [is_db bets with_bets]. unfold Mongo.insert_one, telegram_ids.
  rewrite omap_app. cbn. apply NoDup_app. split; [exact Hnodup|]. split.
  - intros mid Hmid Hin. apply list_elem_of_singleton in Hin as ->.
    by apply find_one_telegram_None in Hfind.
  - apply NoDup_singleton.
Qed.

(** X24. [import_from_telegram] never gives one message identifier to
    two bets: if the identifiers the stored bets carry are pairwise
    distinct before it runs, they are after, whatever the batch, also
    when posts of the batch share an identifier. *)
Theorem import_keeps_message_ids_unique `{Collaborators} (cfg : Config)
    (uuid4 : nat -> pystr) (clock : nat -> datetime) (db : DB)
    (http : http_reply) :
  NoDup (telegram_ids (bets db)) ->
  NoDup (telegram_ids
           (bets (import_from_telegram cfg uuid4 clock db http).2)).
Proof.
  intros Hnodup. unfold import_from_telegram. destruct (negb _); [done|].
  destruct http as [e|data]; [done|]. destruct (negb _); [done|].
  cbn [snd]. unfold import_loop.
  assert (Hgen : forall updates st,
            NoDup (telegram_ids (bets (is_db st))) ->
            NoDup (telegram_ids
                     (bets (is_db (fold_left (import_step uuid4 clock)
                                     updates st))))).
  { induction updates as [|upd updates IH]; intros st Hst; [exact Hst|].
    cbn [fold_left]. apply IH. by apply import_step_unique_ids. }
  by apply Hgen.
Qed.

Lemma import_keeps_message_ids_unique_witness :
  NoDup (telegram_ids
           (bets (import_from_telegram (H := Sample.libs) Sample.cfg
                    Sample.uuid4 Sample.clock Sample.empty_db
                    (Json Demo.repeated_id)).2)).
Proof.
  apply (import_keeps_message_ids_unique (H := Sample.libs)).
  apply NoDup_nil_2.
Defined.

(** Two posts with one identifier: the second is skipped. *)
Example import_repeated_id :
  (fun r => (ir_imported r, ir_skipped r)) <$>
    (match (import_from_telegram (H := Sample.libs) Sample.cfg
              Sample.uuid4 Sample.clock Sample.empty_db
              (Json Demo.repeated_id)).1 with
     | Ok r => Some r
     | _ => None
     end)
  = Some (1%nat, 1%nat).
Proof. lazy. reflexivity. Qed.





(* ===================================================================== *)
(** ** Registrations for notifications *)
(* ===================================================================== *)

Section KeyedFacts.
Context {D : Type} (key : D -> pystr).
Implicit Types (c : list D) (i : pystr).

Lemma update_one_keeps_keys i (set : D -> D) c :
  (forall d, key d = i -> key (set d) = i) ->
  map key (Mongo.update_one (key_is key i) set c) = map key c.
Proof.
  intros Hkeep. induction c as [|x c IH]; simpl; [reflexivity|].
  destruct (key_is key i x) eqn:Hq; simpl; [|by rewrite IH].
  apply pystr_eqb_eq in Hq. by rewrite Hkeep, Hq.
Qed.

Lemma find_one_update_one_hit i (set : D -> D) c :
  (forall d, key d = i -> key (set d) = i) ->
  Mongo.find_one (key_is key i) (Mongo.update_one (key_is key i) set c)
    = set <$> Mongo.find_one (key_is key i) c.
Proof.
  intros Hkeep. induction c as [|x c IH]; simpl; [reflexivity|].
  destruct (key_is key i x) eqn:Hq; simpl.
  - apply pystr_eqb_eq in Hq.
    replace (key_is key i (set x)) with true; [reflexivity|].
    symmetry. apply pystr_eqb_eq. by apply Hkeep.
  - by rewrite Hq.
Qed.

Lemma find_one_update_one_miss i j (set : D -> D) c :
  i <> j ->
  (forall d, key d = i -> key (set d) = i) ->
  Mongo.find_one (key_is key j) (Mongo.update_one (key_is key i) set c)
    = Mongo.find_one (key_is key j) c.
Proof.
  intros Hij Hkeep. induction c as [|x c IH]; simpl; [reflexivity|].
  destruct (key_is key i x) eqn:Hq; simpl; [|by rewrite IH].
  apply pystr_eqb_eq in Hq.
  replace (key_is key j (set x)) with false
    by (symmetry; apply pystr_eqb_neq; rewrite Hkeep; done).
  replace (key_is key j x) with false
    by (symmetry; apply pystr_eqb_neq; congruence).
  reflexivity.
Qed.

Lemma find_one_key_None i c :
  Mongo.find_one (key_is key i) c = None <-> i ∉ map key c.
Proof.
  rewrite find_one_None. induction c as [|x c IH]; simpl.
  - split; [intros _; apply not_elem_of_nil | constructor].
  - rewrite List.Forall_cons_iff, not_elem_of_cons, IH.
    unfold key_is. rewrite pystr_eqb_neq. split; intros [H1 H2];
      (split; [congruence | exact H2]).
Qed.

Lemma delete_one_unique_key i c :
  NoDup (map key c) ->
  Mongo.find_one (key_is key i) (MongoExt.delete_one (key_is key i) c) = None.
Proof.
  induction c as [|x c IH]; simpl; [reflexivity|].
  intros Hnodup. apply NoDup_cons in Hnodup as [Hx Hnodup].
  destruct (key_is key i x) eqn:Hq.
  - apply pystr_eqb_eq in Hq. apply find_one_key_None. by rewrite <- Hq.
  - simpl. rewrite Hq. by apply IH.
Qed.

Lemma delete_one_miss i j c :
  i <> j ->
  Mongo.find_one (key_is key j) (MongoExt.delete_one (key_is key i) c)
    = Mongo.find_one (key_is key j) c.
Proof.
  intros Hij. induction c as [|x c IH]; simpl; [reflexivity|].
  destruct (key_is key i x) eqn:Hq; simpl; [|by rewrite IH].
  apply pystr_eqb_eq in Hq.
  replace (key_is key j x) with false
    by (symmetry; apply pystr_eqb_neq; congruence).
  reflexivity.
Qed.

Lemma delete_one_keeps_unique i c :
  NoDup (map key c) -> NoDup (map key (MongoExt.delete_one (key_is key i) c)).
Proof.
  induction c as [|x c IH]; simpl; [done|].
  intros Hnodup. apply NoDup_cons in Hnodup as [Hx Hnodup].
  destruct (key_is key i x); [exact Hnodup|]. simpl.
  apply NoDup_cons. split; [|by apply IH].
  intros Hin. apply Hx.
  apply list_elem_of_In, in_map_iff in Hin as (y & Hy & Hin).
  rewrite <- Hy. apply list_elem_of_In, in_map.
  clear -Hin. induction c as [|z c IHc]; simpl in *; [done|].
  destruct (key_is key i z); [by right|].
  destruct Hin as [-> | Hin]; [by left | right; by apply IHc].
Qed.
End KeyedFacts.

Section NotificationFacts.
Context {Keys : Type}.

(** The registrations after [subscribe_to_notifications]. *)
Lemma subscribe_registers (ndb : NotifDB Keys) (endpoint : pystr)
    (keys : Keys) (user : User) (now : datetime) :
  let doc := {| ns_user_id := u_id user; ns_endpoint := endpoint;
                ns_keys := keys; ns_subscribed_at := isoformat now |} in
  let subs' :=
    notification_subscriptions
      (subscribe_to_notifications ndb endpoint keys user now).2 in
  Mongo.find_one (subscriber_is (u_id user)) subs' = Some doc /\
  map ns_user_id subs'
    = (if get_notification_status ndb user
       then map ns_user_id (notification_subscriptions ndb)
       else map ns_user_id (notification_subscriptions ndb) ++ [u_id user]) /\
  forall other,
    other <> u_id user ->
    Mongo.find_one (subscriber_is other) subs'
      = Mongo.find_one (subscriber_is other) (notification_subscriptions ndb).
Proof.
  cbv zeta. unfold subscribe_to_notifications, get_notification_status,
    MongoExt.upsert_one. cbn [snd notification_subscriptions].
  change (@subscriber_is Keys) with (key_is (@ns_user_id Keys)).
  destruct (Mongo.find_one (key_is ns_user_id (u_id user))
              (notification_subscriptions ndb)) as [old|] eqn:Hfind.
  - split; [|split].
    + rewrite (find_one_update_one_hit ns_user_id) by done.
      by rewrite Hfind.
    + by apply (update_one_keeps_keys ns_user_id).
    + intros other Hother.
      by apply (find_one_update_one_miss ns_user_id).
  - unfold Mongo.insert_one. split; [|split].
    + rewrite find_one_app, Hfind. cbn [Mongo.find_one].
      unfold key_is at 1. cbn [ns_user_id].
      by rewrite pystr_eqb_refl.
    + by rewrite map_app.
    + intros other Hother. rewrite find_one_app.
      destruct (Mongo.find_one (key_is ns_user_id other) _); [reflexivity|].
      cbn [Mongo.find_one]. unfold key_is at 1. cbn [ns_user_id].
      replace (pystr_eqb (u_id user) other) with false; [reflexivity|].
      symmetry. apply pystr_eqb_neq. congruence.
Qed.

(** X27. Registrations for notifications, one per user: when no user
    has two registrations, [subscribe_to_notifications] keeps it so,
    replaces the caller's registration or adds it (the count grows by
    one only for a new subscriber), and the status of the caller is then
    subscribed; [unsubscribe_from_notifications] after it leaves the
    caller unsubscribed.  Neither touches the status of another user nor
    the notifications sent. *)
Theorem subscribe_then_unsubscribe (ndb : NotifDB Keys) (endpoint : pystr)
    (keys : Keys) (user : User) (now : datetime) :
  NoDup (map ns_user_id (notification_subscriptions ndb)) ->
  let ndb1 := (subscribe_to_notifications ndb endpoint keys user now).2 in
  let ndb2 := (unsubscribe_from_notifications ndb1 user).2 in
  NoDup (map ns_user_id (notification_subscriptions ndb1)) /\
  Mongo.find_one (subscriber_is (u_id user)) (notification_subscriptions ndb1)
    = Some {| ns_user_id := u_id user; ns_endpoint := endpoint;
              ns_keys := keys; ns_subscribed_at := isoformat now |} /\
  get_notification_status ndb1 user = true /\
  get_subscriber_count ndb1
    = get_subscriber_count ndb
      + (if get_notification_status ndb user then 0 else 1) /\
  get_notification_status ndb2 user = false /\
  NoDup (map ns_user_id (notification_subscriptions ndb2)) /\
  (forall other,
     u_id other <> u_id user ->
     get_notification_status ndb1 other = get_notification_status ndb other /\
     get_notification_status ndb2 other = get_notification_status ndb other) /\
  notifications ndb2 = notifications ndb.
Proof.
  intros Hnodup ndb1 ndb2.
  destruct (subscribe_registers ndb endpoint keys user now)
    as (Hfind & Hkeys & Hothers).
  fold ndb1 in Hfind, Hkeys, Hothers.
  unfold get_notification_status in *.
  unfold ndb2, unsubscribe_from_notifications.
  cbn [snd notification_subscriptions notifications].
  change (@subscriber_is Keys) with (key_is (@ns_user_id Keys)) in *.
  assert (Hnodup1 : NoDup (map ns_user_id (notification_subscriptions ndb1))).
  { rewrite Hkeys.
    destruct (Mongo.find_one (key_is ns_user_id (u_id user))
                (notification_subscriptions ndb)) eqn:Hold; [exact Hnodup|].
    apply NoDup_app. split; [exact Hnodup|]. split; [|apply NoDup_singleton].
    intros i Hi Hin. apply list_elem_of_singleton in Hin as ->.
    by apply (find_one_key_None ns_user_id) in Hold. }
  split; [exact Hnodup1|]. split; [exact Hfind|].
  split; [by rewrite Hfind|].
  split.
  { unfold get_subscriber_count, Mongo.count_documents.
    rewrite !(find_all (D := Subscription Keys)).
    rewrite <- !(length_map ns_user_id), Hkeys.
    destruct (Mongo.find_one (key_is ns_user_id (u_id user))
                (notification_subscriptions ndb)); [lia|].
    rewrite length_app. simpl. lia. }
  split; [by rewrite (delete_one_unique_key ns_user_id)|].
  split; [by apply (delete_one_keeps_unique ns_user_id)|].
  split; [|reflexivity].
  intros other Hother.
  rewrite (delete_one_miss ns_user_id) by congruence.
  by rewrite Hothers by congruence.
Qed.
End NotificationFacts.

Lemma subscribe_then_unsubscribe_witness :
  get_subscriber_count
    (subscribe_to_notifications Demo.notif_db (u "https://push.example/b")
       Demo.browser_keys Sample.bob Sample.noon).2 = 2
  /\ get_notification_status
       (unsubscribe_from_notifications
          (subscribe_to_notifications Demo.notif_db
             (u "https://push.example/b") Demo.browser_keys Sample.bob
             Sample.noon).2 Sample.bob).2 Sample.bob = false
  /\ get_notification_status
       (unsubscribe_from_notifications
          (subscribe_to_notifications Demo.notif_db
             (u "https://push.example/b") Demo.browser_keys Sample.bob
             Sample.noon).2 Sample.bob).2 Sample.alice = true.
Proof.
  assert (Hnodup : NoDup (map ns_user_id
                            (notification_subscriptions Demo.notif_db)))
    by (apply (bool_decide_unpack _); by vm_compute).
  destruct (subscribe_then_unsubscribe Demo.notif_db
              (u "https://push.example/b") Demo.browser_keys Sample.bob
              Sample.noon Hnodup)
    as (_ & _ & _ & Hcount & Hoff & _ & Hothers & _).
  split; [rewrite Hcount; reflexivity|]. split; [exact Hoff|].
  destruct (Hothers Sample.alice) as [_ Halice];
    [vm_compute; discriminate|].
  rewrite Halice. reflexivity.
Defined.

Lemma StronglySorted_app_rel {A : Type} (R : A -> A -> Prop)
    (l1 l2 : list A) (x y : A) :
  StronglySorted R (l1 ++ l2) -> x ∈ l1 -> y ∈ l2 -> R x y.
Proof.
  induction l1 as [|a l1 IH]; simpl; intros Hs Hx Hy.
  - by apply elem_of_nil in Hx.
  - apply StronglySorted_inv in Hs as [Hs Ha].
    apply elem_of_cons in Hx as [-> | Hx]; [|by apply IH].
    rewrite Forall_forall in Ha. apply Ha. apply elem_of_app. by right.
Qed.

(** The notifications, latest first, cut at [n]: what is shown is
    stored, in descending order of [sent_at], and nothing left out is
    later than something shown. *)
Lemma latest_notifications_spec {Keys : Type} (n : nat)
    (ndb : NotifDB Keys) :
  StronglySorted (fun x y => Mongo.str_leb (n_sent_at y) (n_sent_at x) = true)
                 (latest_notifications n ndb) /\
  length (latest_notifications n ndb)
    = Nat.min n (length (notifications ndb)) /\
  (forall x, x ∈ latest_notifications n ndb -> x ∈ notifications ndb) /\
  (forall x m,
     x ∈ latest_notifications n ndb ->
     m ∈ notifications ndb ->
     m ∉ latest_notifications n ndb ->
     Mongo.str_leb (n_sent_at m) (n_sent_at x) = true).
Proof.
  unfold latest_notifications, Mongo.to_list. rewrite find_all.
  pose proof (sort_desc_strongly_sorted n_sent_at (notifications ndb))
    as Hsorted.
  pose proof (sort_desc_perm n_sent_at (notifications ndb)) as Hperm.
  split; [by apply take_StronglySorted|].
  split; [by rewrite length_take, (Permutation_length Hperm)|].
  split.
  { intros x Hx. apply subseteq_take in Hx. by rewrite Hperm in Hx. }
  intros x m Hx Hm Hout.
  rewrite <- Hperm in Hm.
  rewrite <- (take_drop n (MongoExt.sort_desc n_sent_at (notifications ndb)))
    in Hm, Hsorted.
  apply elem_of_app in Hm as [Hm | Hm]; [done|].
  exact (StronglySorted_app_rel _ _ _ x m Hsorted Hx Hm).
Qed.

(** X28. [GET /notifications/latest] shows the ten latest notifications
    and [GET /admin/notifications] the fifty latest: each answers stored
    notifications in descending order of [sent_at], ten (fifty) of them
    or all when fewer are stored, and no notification left out was sent
    later than one that is shown. *)
Theorem notifications_shown_are_the_latest {Keys : Type}
    (ndb : NotifDB Keys) :
  (StronglySorted
     (fun x y => Mongo.str_leb (n_sent_at y) (n_sent_at x) = true)
     (get_latest_notifications ndb) /\
   length (get_latest_notifications ndb)
     = Nat.min 10 (length (notifications ndb)) /\
   (forall x, x ∈ get_latest_notifications ndb -> x ∈ notifications ndb) /\
   (forall x m,
      x ∈ get_latest_notifications ndb ->
      m ∈ notifications ndb ->
      m ∉ get_latest_notifications ndb ->
      Mongo.str_leb (n_sent_at m) (n_sent_at x) = true)) /\
  (StronglySorted
     (fun x y => Mongo.str_leb (n_sent_at y) (n_sent_at x) = true)
     (get_sent_notifications ndb) /\
   length (get_sent_notifications ndb)
     = Nat.min 50 (length (notifications ndb)) /\
   (forall x, x ∈ get_sent_notifications ndb -> x ∈ notifications ndb) /\
   (forall x m,
      x ∈ get_sent_notifications ndb ->
      m ∈ notifications ndb ->
      m ∉ get_sent_notifications ndb ->
      Mongo.str_leb (n_sent_at m) (n_sent_at x) = true)).
Proof.
  split; [apply (latest_notifications_spec 10)
         | apply (latest_notifications_spec 50)].
Qed.

(* ===================================================================== *)
(** ** Settling a pick moves it between the listings *)
(* ===================================================================== *)

(** Every matching document is in the results when at most 100 match. *)
Lemma results_docs_complete (db : DB) (vip : bool) (b : Bet) :
  Mongo.count_documents (results_filter vip) (bets db) <= 100 ->
  b ∈ bets db -> results_filter vip b = true ->
  b ∈ results_docs db vip.
Proof.
  unfold results_docs, Mongo.to_list, Mongo.find, Mongo.count_documents.
  intros Hcount Hin Hq. rewrite take_ge.
  - rewrite sort_desc_perm. apply list_elem_of_In, filter_In.
    split; [by apply list_elem_of_In | exact Hq].
  - rewrite (Permutation_length (sort_desc_perm b_kick_off _)). lia.
Qed.

(** X29. Settling a pick takes it out of the listing of the day and
    puts it into the results: after [update_bet_result] with status
    "won" or "lost", the answered bet is not in [GET /bets/today], and
    when it is a free pick it is in [GET /bets/results], provided at
    most 100 settled free picks are stored. *)
Theorem settling_moves_pick (db : DB) (bet_id : pystr) (upd : BetUpdate)
    (b : Bet) (now : datetime) :
  Mongo.find_one (bet_id_is bet_id) (bets db) = Some b ->
  bu_status upd = u "won" \/ bu_status upd = u "lost" ->
  let db' := (update_bet_result db bet_id upd).2 in
  (update_bet_result db bet_id upd).1
    = Ok (bet_response (set_result upd b)) /\
  (bet_response (set_result upd b) ∉ get_today_bets db' now) /\
  (b_is_vip b = false ->
   Mongo.count_documents (results_filter false) (bets db') <= 100 ->
   bet_response (set_result upd b) ∈ get_results db').
Proof.
  intros Hb Hsettled. unfold update_bet_result. rewrite Hb. cbn [fst snd].
  split; [reflexivity|]. split.
  - intros Hin. apply list_elem_of_In, in_map_iff in Hin as (b' & Heq & Hb').
    apply list_elem_of_In, today_docs_sound in Hb' as [_ Hq].
    apply today_filter_true in Hq as (_ & _ & Hpending).
    assert (Hst : br_status (bet_response b')
                  = br_status (bet_response (set_result upd b)))
      by (by rewrite Heq).
    cbn [bet_response br_status set_result b_status] in Hst.
    rewrite Hpending in Hst.
    destruct Hsettled as [Hw | Hl]; rewrite ?Hw, ?Hl in Hst;
      by vm_compute in Hst.
  - intros Hfree Hcount. unfold get_results.
    apply list_elem_of_In, in_map, list_elem_of_In.
    apply results_docs_complete; [exact Hcount | |].
    + cbn [bets with_bets].
      assert (Hfound : Mongo.find_one (bet_id_is bet_id)
                (Mongo.update_one (bet_id_is bet_id) (set_result upd)
                   (bets db)) = Some (set_result upd b)).
      { rewrite find_one_update_one by (intros d; reflexivity).
        by rewrite Hb. }
      by apply find_one_Some in Hfound as [Hin _].
    + apply results_filter_true. cbn [set_result b_status b_is_vip].
      by split.
Qed.

Lemma settling_moves_pick_witness :
  bet_response
    (set_result Demo.home_score_only
       (Sample.bet (u "5") (u "e") false (u "pending")))
    ∈ get_results
        (update_bet_result Sample.three_won_one_lost (u "5")
           Demo.home_score_only).2.
Proof.
  destruct (settling_moves_pick Sample.three_won_one_lost (u "5")
              Demo.home_score_only
              (Sample.bet (u "5") (u "e") false (u "pending"))
              Sample.noon eq_refl (or_introl eq_refl))
    as (_ & _ & Hres).
  apply Hres; [reflexivity|]. vm_compute. discriminate.
Defined.

(* ===================================================================== *)
(** ** Messages the parser rejects *)
(* ===================================================================== *)

Lemma startswith_elem (p s : pystr) (c : N) :
  startswith p s = true -> c ∈ p -> c ∈ s.
Proof.
  revert s. induction p as [|a p IH]; intros [|b s] Hp Hc; simpl in Hp;
    try done; [by apply elem_of_nil in Hc|].
  apply andb_true_iff in Hp as [Hab Hp]. apply N.eqb_eq in Hab as ->.
  apply elem_of_cons in Hc as [-> | Hc]; [left | right; by apply IH].
Qed.

Lemma contains_elem (sub s : pystr) (c : N) :
  contains sub s = true -> c ∈ sub -> c ∈ s.
Proof.
  induction s as [|b s IH]; simpl; intros Hs Hc.
  - rewrite orb_false_r in Hs. by eapply startswith_elem.
  - apply orb_true_iff in Hs as [Hs | Hs];
      [by eapply startswith_elem | right; by apply IH].
Qed.

Lemma lstrip_elem (s : pystr) (c : N) : c ∈ lstrip s -> c ∈ s.
Proof.
  induction s as [|b s IH]; simpl; [done|].
  destruct (is_space b); [|done]. intros Hc. right. by apply IH.
Qed.

Lemma elem_of_rev {A : Type} (l : list A) (x : A) : x ∈ rev l <-> x ∈ l.
Proof. rewrite !list_elem_of_In. symmetry. apply in_rev. Qed.

Lemma strip_elem (s : pystr) (c : N) : c ∈ strip s -> c ∈ s.
Proof.
  unfold strip. rewrite elem_of_rev. intros Hc.
  apply lstrip_elem in Hc. rewrite elem_of_rev in Hc.
  by apply lstrip_elem.
Qed.

Lemma split_go_elem (at_sep : pystr -> bool) (n skip : nat)
    (acc s piece : pystr) (c : N) :
  piece ∈ split_go at_sep n skip acc s -> c ∈ piece -> c ∈ acc \/ c ∈ s.
Proof.
  revert skip acc. induction s as [|b s IH]; intros skip acc Hp Hc; simpl in Hp.
  - apply list_elem_of_singleton in Hp as ->.
    left. by apply elem_of_rev.
  - destruct skip as [|k].
    + destruct (at_sep (b :: s)).
      * apply elem_of_cons in Hp as [-> | Hp];
          [left; by apply elem_of_rev|].
        destruct (IH _ _ Hp Hc) as [Hnil | Hs];
          [by apply elem_of_nil in Hnil | right; by right].
      * destruct (IH _ _ Hp Hc) as [Hacc | Hs]; [|right; by right].
        apply elem_of_cons in Hacc as [-> | Hacc];
          [right; by left | by left].
    + destruct (IH _ _ Hp Hc) as [Hacc | Hs]; [by left | right; by right].
Qed.

Lemma lower_v (s : pystr) : 118%N ∈ lower s -> 118%N ∈ s \/ 86%N ∈ s.
Proof.
  unfold lower. induction s as [|b s IH]; simpl; [by left|].
  rewrite elem_of_app. intros [Hb | Hs].
  - unfold lower1 in Hb.
    destruct ((65 <=? b)%N && (b <=? 90)%N) eqn:Hup;
      apply list_elem_of_singleton in Hb.
    + right. apply elem_of_cons. left. lia.
    + left. apply elem_of_cons. by left.
  - destruct (IH Hs); [left | right]; apply elem_of_cons; by right.
Qed.

(** A line without the letter v leaves the teams as they are. *)
Lemma step_teams_without_v (line : pystr) (st : ParsedPick) :
  118%N ∉ line -> 86%N ∉ line -> step_teams line st = st.
Proof.
  intros Hv HV. unfold step_teams.
  destruct (contains (u " v ") line) eqn:H1.
  - exfalso. apply Hv. eapply contains_elem; [exact H1|].
    apply (bool_decide_unpack _). by vm_compute.
  - cbn [andb].
    destruct (contains (u " vs ") (lower line)) eqn:H2; [|reflexivity].
    exfalso.
    assert (Hin : 118%N ∈ lower line).
    { eapply contains_elem; [exact H2|].
      apply (bool_decide_unpack _). by vm_compute. }
    by destruct (lower_v line Hin).
Qed.

Lemma parse_line_home_team (raw : pystr) (st st' : ParsedPick) :
  118%N ∉ raw -> 86%N ∉ raw ->
  parse_line raw st = Some st' -> pp_home_team st' = pp_home_team st.
Proof.
  intros Hv HV. unfold parse_line.
  rewrite step_teams_without_v
    by (intros Hin; apply strip_elem in Hin; auto).
  assert (H1 : pp_home_team (step_bet_type (strip raw) st) = pp_home_team st).
  { unfold step_bet_type. by destruct (_ || _). }
  destruct (step_stake _ _) as [st1|] eqn:Hst1; [|discriminate].
  assert (H2 : pp_home_team st1 = pp_home_team st).
  { revert Hst1. unfold step_stake. destruct (_ || _);
      [|intros [= <-]; exact H1].
    destruct (re_search_int _); [|intros [= <-]; exact H1].
    destruct (py_int _); [|discriminate]. intros [= <-]. exact H1. }
  assert (H3 : pp_home_team (step_result (strip raw)
                               (step_odds (strip raw) st1))
               = pp_home_team st).
  { unfold step_result, step_odds.
    repeat (match goal with
            | |- context [if ?b then _ else _] => destruct b
            | |- context [match ?o with Some _ => _ | None => _ end] =>
              destruct o
            end); exact H2. }
  unfold step_score. destruct (re_search_score _) as [[g1 g2]|];
    [|intros [= <-]; exact H3].
  destruct (_ || _); [|intros [= <-]; exact H3].
  destruct (py_int g1); [|discriminate].
  destruct (py_int g2); [|discriminate]. intros [= <-]. exact H3.
Qed.

(** X30. A message without the letter v, small or capital, is never
    parsed: no line can name the two teams, and
    [parse_telegram_message] answers [None] whatever else the message
    holds. *)
Theorem message_without_v_is_rejected (txt : pystr) :
  118%N ∉ txt -> 86%N ∉ txt -> parse_telegram_message txt = None.
Proof.
  intros Hv HV. unfold parse_telegram_message.
  assert (Hgen : forall lines st st',
            (forall l, l ∈ lines -> (118%N ∉ l) /\ (86%N ∉ l)) ->
            parse_lines lines st = Some st' ->
            pp_home_team st' = pp_home_team st).
  { induction lines as [|l lines IH]; intros st st' Hl; simpl.
    - by intros [= <-].
    - destruct (parse_line l st) as [st1|] eqn:H1; [|discriminate].
      intros Hrest. destruct (Hl l) as [Hlv HlV]; [left|].
      rewrite (IH st1 st');
        [|intros l' Hl'; apply Hl; by right | exact Hrest].
      by apply (parse_line_home_team l st st1). }
  destruct (parse_lines _ _) as [st|] eqn:Hlines; [|reflexivity].
  apply Hgen in Hlines.
  - rewrite Hlines. reflexivity.
  - intros l Hl. split; intros Hc;
      destruct (split_go_elem _ _ _ _ _ _ _ Hl Hc) as [Hnil | Hs];
      try (by apply elem_of_nil in Hnil);
      apply strip_elem in Hs; auto.
Qed.

Lemma message_without_v_is_rejected_witness :
  parse_telegram_message
    (u "Lyon - Nice" ++ [LF] ++ u "BTTS Yes" ++ [LF] ++ u "Odds 1.70") = None.
Proof.
  apply message_without_v_is_rejected;
    apply (bool_decide_unpack _); by vm_compute.
Defined.
